(** * Downloads organizer: a shallow embedding of [organize.py]

    The development models the [DirectoryOrganizer] class of
    [src/organize.py] and settles the properties stated about it.

    Modelling decisions, all written out below:
    - Python [str] is [string] (byte characters); [str.lower] maps the
      ASCII letters [A]..[Z] and leaves every other character alone.
    - Python [int] is [Z] ([str.rfind] returns [-1] when nothing is found).
    - [pathlib] is the Python 3.8 one named in the module docstring, POSIX
      flavour: [PurePath.suffix], [Path.expanduser], [Path.mkdir],
      [Path.rename], [Path.iterdir], [Path.is_file], [Path.is_dir].
    - The file system is a tree of regular files and directories; the state
      the methods act on is the content of the target directory, a finite
      map from entry names to nodes.  Names are single path components.
    - A method either finishes ([Done]) or raises ([Raised]); in both cases
      the file system it leaves behind is part of the outcome.
    - The category mapping is a Python [dict]: an association list in
      insertion order.
    - The order in which [iterdir] lists the directory and what [rename]
      does when the destination exists are parameters: every property
      below holds for all of them.
    - Not modelled: permissions, symbolic links and special files, file
      systems that fold the case of names, a target directory that does
      not exist. *)

From Stdlib Require Import ZArith Ascii String List Permutation.
From stdpp Require Import base option list strings gmap fin_maps.

Local Open Scope string_scope.

(** ** Strings *)

Module Str.

(** [len(s)] *)
Definition len (s : string) : Z := Z.of_nat (String.length s).

(** [s.rfind(c)] for a one-character needle: the highest index at which
    [c] occurs, [-1] when it does not occur.  [i] is the index of the
    first character of [s] in the whole string. *)
Fixpoint rfind_from (c : ascii) (s : string) (i : Z) : Z :=
  match s with
  | EmptyString => (-1)%Z
  | String a s' =>
      let r := rfind_from c s' (i + 1)%Z in
      if (0 <=? r)%Z then r
      else if Ascii.eqb a c then i else (-1)%Z
  end.

Definition rfind (c : ascii) (s : string) : Z := rfind_from c s 0%Z.

(** [s[i:]] for [0 <= i] *)
Fixpoint drop (n : nat) (s : string) : string :=
  match n, s with
  | O, _ => s
  | S _, EmptyString => EmptyString
  | S n', String _ s' => drop n' s'
  end.

Definition slice_from (i : Z) (s : string) : string := drop (Z.to_nat i) s.

(** [s[:1]] *)
Definition first1 (s : string) : string :=
  match s with
  | EmptyString => EmptyString
  | String a _ => String a EmptyString
  end.

(** ASCII part of [str.lower] on one character *)
Definition is_upper (a : ascii) : bool :=
  let n := nat_of_ascii a in (65 <=? n)%nat && (n <=? 90)%nat.

Definition lower_char (a : ascii) : ascii :=
  if is_upper a then ascii_of_nat (nat_of_ascii a + 32) else a.

Fixpoint lower (s : string) : string :=
  match s with
  | EmptyString => EmptyString
  | String a s' => String (lower_char a) (lower s')
  end.


(** [s.split(sep)] for a one-character separator: every occurrence of
    [sep] cuts, so consecutive separators give empty pieces and the
    result is never the empty list. *)
Fixpoint split (sep : ascii) (s : string) : list string :=
  match s with
  | EmptyString => [EmptyString]
  | String a s' =>
      if Ascii.eqb a sep then EmptyString :: split sep s'
      else match split sep s' with
           | [] => [String a EmptyString]
           | w :: ws => String a w :: ws
           end
  end.

(** [sep.join(ws)] for a one-character separator *)
Fixpoint join (sep : ascii) (ws : list string) : string :=
  match ws with
  | [] => EmptyString
  | w :: ws' =>
      match ws' with
      | [] => w
      | _ :: _ => w ++ String sep (join sep ws')
      end
  end.

(** [s.lstrip(c)] *)
Fixpoint lstrip (c : ascii) (s : string) : string :=
  match s with
  | EmptyString => EmptyString
  | String a s' => if Ascii.eqb a c then lstrip c s' else s
  end.

(** [c in s] for a one-character [c] *)
Fixpoint occurs (c : ascii) (s : string) : bool :=
  match s with
  | EmptyString => false
  | String a s' => Ascii.eqb a c || occurs c s'
  end.

(** truthiness of a [str] *)
Definition nonempty (s : string) : bool :=
  match s with EmptyString => false | _ => true end.

End Str.

(** ** [PurePath.suffix] (Python 3.8)

<<
    name = self.name
    i = name.rfind('.')
    if 0 < i < len(name) - 1:
        return name[i:]
    else:
        return ''
>> *)
Definition suffix (name : string) : string :=
  let i := Str.rfind "." name in
  if (0 <? i)%Z && (i <? Str.len name - 1)%Z then Str.slice_from i name
  else "".

(** ** Pure paths (POSIX flavour of [pathlib], Python 3.8) *)

Module Pathlib.

(** A parsed path: its root (['']; ['/'] or ['//']) and the components
    after the root. *)
Record PurePath := { root : string; parts : list string }.

(** [_PosixFlavour.splitroot]: the root of one argument and the rest.
    Exactly two leading slashes are kept as a root of their own. *)
Definition splitroot (part : string) : string * string :=
  if String.eqb (Str.first1 part) "/" then
    let stripped := Str.lstrip "/" part in
    if (Str.len part - Str.len stripped =? 2)%Z then ("//", stripped)
    else ("/", stripped)
  else ("", part).

(** the components of the rest: the pieces between separators that are
    neither empty nor ['.'] *)
Definition components (rel : string) : list string :=
  filter (λ x, x ≠ "" ∧ x ≠ ".") (Str.split "/" rel).

(** [_Flavour.parse_parts]: the arguments are read from the last to the
    first, and reading stops at the first one that has a root. *)
Fixpoint parse_parts (args : list string) : PurePath :=
  match args with
  | [] => {| root := ""; parts := [] |}
  | a :: rest =>
      let later := parse_parts rest in
      if Str.nonempty (root later) then later
      else {| root := (splitroot a).1;
              parts := components (splitroot a).2 ++ parts later |}
  end.

(** [Path(s)] *)
Definition Path (s : string) : PurePath := parse_parts [s].

(** [PurePath.is_absolute] (there is no drive on POSIX) *)
Definition is_absolute (p : PurePath) : bool := Str.nonempty (root p).

(** the test of [expanduser]:
    [not (self._drv or self._root) and self._parts and
     self._parts[0][:1] == '~'] *)
Definition expandable (p : PurePath) : bool :=
  negb (Str.nonempty (root p))
  && match parts p with
     | first :: _ => String.eqb (Str.first1 first) "~"
     | [] => false
     end.

Section Home.

(** [_PosixFlavour.gethomedir]: the home directory of a user (of the
    current user for ['']), [None] where Python raises [RuntimeError]
    because it cannot be determined. *)
Variable gethomedir : string → option string.

(**
<<
if (not (self._drv or self._root) and
    self._parts and self._parts[0][:1] == '~'):
    homedir = self._flavour.gethomedir(self._parts[0][1:])
    return self._from_parts([homedir] + self._parts[1:])
return self
>> *)
Definition expanduser (p : PurePath) : option PurePath :=
  if expandable p then
    match gethomedir (Str.slice_from 1 (hd "" (parts p))) with
    | Some homedir => Some (parse_parts (homedir :: tl (parts p)))
    | None => None
    end
  else Some p.

End Home.

End Pathlib.

(** ** The category mapping *)

(** [Dict[str, Sequence[str]]], in insertion order *)
Definition mapping := list (string * list string).

(** iterating a dict yields its keys *)
Definition keys (m : mapping) : list string := m.*1.

(** [m[k]] for a key [k] of [m] *)
Fixpoint getitem (m : mapping) (k : string) : option (list string) :=
  match m with
  | [] => None
  | (k', v) :: m' => if String.eqb k' k then Some v else getitem m' k
  end.

(** [ext in m[k]]; a key that is absent matches nothing *)
Definition listed (m : mapping) (k ext : string) : bool :=
  match getitem m k with
  | Some exts => bool_decide (ext ∈ exts)
  | None => false
  end.

(** no category of [m] lists the lowered suffix of [name] *)
Definition unlisted (m : mapping) (name : string) : Prop :=
  ∀ k, k ∈ keys m → listed m k (Str.lower (suffix name)) = false.

(** every extension of [m] is listed under one category only *)
Definition exclusive (m : mapping) : bool :=
  forallb (λ kv : string * list string,
    forallb (λ ext,
      forallb (λ kv' : string * list string,
                 String.eqb kv'.1 kv.1 || negb (bool_decide (ext ∈ kv'.2))) m)
      kv.2) m.

(** the mapping without the extension tokens [drop], category by category *)
Definition without_tokens (drop : list string) (m : mapping) : mapping :=
  map (λ kv, (kv.1, filter (λ e, e ∉ drop) kv.2)) m.

(** [toolz.dicttoolz.valmap] *)
Definition valmap {A B} (f : A → B) (d : list (string * A)) : list (string * B) :=
  map (λ kv, (kv.1, f kv.2)) d.

(** [space_splitter = methodcaller('split', ' ')] *)
Definition space_splitter (s : string) : list string := Str.split " " s.

Definition TARGET_DIR : string := "~/Downloads".

Definition _ORG_DIRECTORIES : list (string * string) :=
  [ ("Documents", ".oxps .epub .pages .docx .doc .fdf .ods .odt "
                  ++ ".pwi .xsn .xps .dotx .docm .dox .rvg .rtf "
                  ++ ".rtfd .wpd .csv .xls .xlsx .ppt pptx");
    ("Plaintext", ".txt .in .out");
    ("PDFs", ".pdf");
    ("Images", ".jpeg .jpg .tif .tiff .gif .bmp "
               ++ ".png .bpg svg .heif .psd");
    ("Audio", ".aac .aa .aac .dvf .m4a .m4b .m4p "
              ++ ".mp3 .msv .ogg .oga .raw .vox .wav .wma");
    ("Videos", ".avi .flv .wmv .mov .mp4 .webm .vob "
               ++ ".mng .qt .mpg .mpeg .3gp .mkv");
    ("Archives", ".a .ar .cpio .iso .tar .gz "
                 ++ ".rz .7z .dmg .rar .xar .zip");
    ("Scripts", ".sh .zsh .py") ].

Definition ORG_DIRECTORIES : mapping := valmap space_splitter _ORG_DIRECTORIES.

(** ** The file system *)

(** A node is a regular file with its content or a directory with its
    entries.  Symbolic links, devices and permissions are not modelled. *)
#[warnings="-register-all"]
Inductive node : Type :=
  | File (content : string)
  | Dir (entries : gmap string node).

(** the content of one directory: entry name to node *)
Abbreviation directory := (gmap string node).

(** the exceptions the modelled calls can raise; the two plain [OSError]s
    are named after their errno *)
Inductive exn : Type :=
  | FileNotFoundError
  | FileExistsError
  | IsADirectoryError
  | NotADirectoryError
  | OSError_ENOTEMPTY
  | OSError_EINVAL
  | KeyError.

(** what a call leaves behind: it returned, or it raised; the file system
    is kept in both cases, since nothing is rolled back *)
Inductive outcome : Type :=
  | Done (d : directory)
  | Raised (e : exn) (d : directory).

Definition state_of (r : outcome) : directory :=
  match r with Done d => d | Raised _ d => d end.

(** sequencing of two statements *)
Definition and_then (f g : directory → outcome) (d : directory) : outcome :=
  match f d with
  | Done d' => g d'
  | Raised e d' => Raised e d'
  end.

Infix ">>" := and_then (at level 65, right associativity).

(** [for x in xs: body(x)] *)
Fixpoint for_each {A} (body : A → directory → outcome) (xs : list A)
    (d : directory) : outcome :=
  match xs with
  | [] => Done d
  | x :: xs' =>
      match body x d with
      | Done d' => for_each body xs' d'
      | Raised e d' => Raised e d'
      end
  end.

(** [Path(target, name).is_file()], [.is_dir()] *)
Definition is_file (d : directory) (name : string) : bool :=
  match d !! name with Some (File _) => true | _ => false end.

Definition is_dir (d : directory) (name : string) : bool :=
  match d !! name with Some (Dir _) => true | _ => false end.

(** the node at [target / sub / name], if there is one *)
Definition entry_at (d : directory) (sub name : string) : option node :=
  match d !! sub with
  | Some (Dir kids) => kids !! name
  | _ => None
  end.

(** [Path(target, name).mkdir(exist_ok=True)]: an existing directory is
    accepted, an existing file is not *)
Definition mkdir_exist_ok (name : string) (d : directory) : outcome :=
  match d !! name with
  | None => Done (<[name := Dir ∅]> d)
  | Some (Dir _) => Done d
  | Some (File _) => Raised FileExistsError d
  end.

(** What [os.rename] does when the destination exists: [None] replaces it,
    [Some e] raises [e]. *)
Definition collision_policy := node → node → option exn.

(** POSIX [rename(2)] *)
Definition posix_policy : collision_policy := λ src old,
  match src, old with
  | File _, File _ => None
  | File _, Dir _ => Some IsADirectoryError
  | Dir _, File _ => Some NotADirectoryError
  | Dir _, Dir kids =>
      match map_to_list kids with
      | [] => None
      | _ :: _ => Some OSError_ENOTEMPTY
      end
  end.

(** a primitive that never replaces *)
Definition refusing_policy : collision_policy := λ _ _, Some FileExistsError.

(** [listdir] in entry-name order of the map *)
Definition listdir_keys (d : directory) : list string := (map_to_list d).*1.

(** ** The organizer *)

Record DirectoryOrganizer := {
  target_dir : Pathlib.PurePath;
  org_directories : mapping
}.

(**
<<
    if target_dir is None:
      target_dir = self.TARGET_DIR
    self.target_dir = Path(target_dir).expanduser()

    if org_directories is None:
      org_directories = self.ORG_DIRECTORIES
    self.org_directories = org_directories
>>
    [None] is the [RuntimeError] of [expanduser]. *)
Definition init (gethomedir : string → option string)
    (target_dir : option string) (org_directories : option mapping)
    : option DirectoryOrganizer :=
  let target_dir := default TARGET_DIR target_dir in
  match Pathlib.expanduser gethomedir (Pathlib.Path target_dir) with
  | None => None
  | Some p =>
      let org_directories := default ORG_DIRECTORIES org_directories in
      Some {| target_dir := p; org_directories := org_directories |}
  end.

(** [self] with another category mapping, the target path kept *)
Definition with_mapping (self : DirectoryOrganizer) (m : mapping)
    : DirectoryOrganizer :=
  {| target_dir := target_dir self; org_directories := m |}.

Section Methods.

Variable on_collision : collision_policy.

(** [os.listdir] of the target directory: the entry names, in an order
    the file system chooses *)
Variable listdir : directory → list string.
Hypothesis listdir_spec : ∀ d, listdir d ≡ₚ (map_to_list d).*1.

(** [Path(target, name).rename(target / sub / name)]: [os.rename] of a
    direct child into the folder [sub], under its own name.  It raises
    [FileNotFoundError] when the folder or the source is missing,
    [NotADirectoryError] when [sub] is a regular file, and [EINVAL] for a
    directory moved into itself.  Otherwise the node leaves the top level
    and takes its place in the folder; when a namesake is there already,
    the policy decides.  The folder is looked up first, then the source. *)
Definition rename_into (sub name : string) (d : directory) : outcome :=
  match d !! sub with
  | None => Raised FileNotFoundError d
  | Some (File _) => Raised NotADirectoryError d
  | Some (Dir kids) =>
      match d !! name with
      | None => Raised FileNotFoundError d
      | Some src =>
          if decide (sub = name) then Raised OSError_EINVAL d
          else
            let moved := <[sub := Dir (<[name := src]> kids)]> (delete name d) in
            match kids !! name with
            | None => Done moved
            | Some old =>
                match on_collision src old with
                | None => Done moved
                | Some e => Raised e d
                end
            end
      end
  end.

(** the exceptions [rename_into] raises for a node that is not moved into
    itself *)
Definition raised_by_rename (e : exn) : Prop :=
  e = FileNotFoundError ∨ e = NotADirectoryError ∨
  ∃ src old, on_collision src old = Some e.

Variable self : DirectoryOrganizer.

(**
<<
  for x in self.org_directories:
    Path(self.target_dir, x).mkdir(exist_ok=True)
>> *)
Definition create_folders : directory → outcome :=
  for_each mkdir_exist_ok (keys (org_directories self)).

(** one turn of the inner loop:
<<
        if path.suffix.lower() in self.org_directories[org_dir]:
          path.rename(self.target_dir / org_dir / path.name)
>> *)
Definition classify (name org_dir : string) (d : directory) : outcome :=
  match getitem (org_directories self) org_dir with
  | None => Raised KeyError d
  | Some exts =>
      if bool_decide (Str.lower (suffix name) ∈ exts)
      then rename_into org_dir name d
      else Done d
  end.

(** one turn of the outer loop of [organize_files] *)
Definition organize_files_step (name : string) (d : directory) : outcome :=
  if is_file d name && Str.nonempty (suffix name)
  then for_each (classify name) (keys (org_directories self)) d
  else Done d.

(**
<<
  for path in self.target_dir.iterdir():
    if path.is_file() and path.suffix:
      for org_dir in self.org_directories:
        if path.suffix.lower() in self.org_directories[org_dir]:
          path.rename(self.target_dir / org_dir / path.name)
>>
    [iterdir] lists the directory once, before the first turn. *)
Definition organize_files (d : directory) : outcome :=
  for_each organize_files_step (listdir d) d.

Definition organize_remaining_files_step (name : string) (d : directory)
    : outcome :=
  if is_file d name && Str.nonempty (suffix name)
  then rename_into "Other" name d
  else Done d.

(**
<<
  for path in self.target_dir.iterdir():
    if path.is_file() and path.suffix:
      path.rename(self.target_dir / 'Other' / path.name)
>> *)
Definition organize_remaining_files (d : directory) : outcome :=
  for_each organize_remaining_files_step (listdir d) d.

Definition organize_remaining_folders_step (name : string) (d : directory)
    : outcome :=
  if is_dir d name
     && bool_decide (name ∉ keys (org_directories self))
     && bool_decide (name ≠ "FOLDERS")
  then rename_into "FOLDERS" name d
  else Done d.

(**
<<
  for path in self.target_dir.iterdir():
    if all((path.is_dir(), path.name not in self.org_directories,
            path.name != 'FOLDERS')):
      path.rename(self.target_dir / 'FOLDERS' / path.name)
>> *)
Definition organize_remaining_folders (d : directory) : outcome :=
  for_each organize_remaining_folders_step (listdir d) d.

(**
<<
  self.create_folders()
  self.organize_files()
  self.organize_remaining_files()
  self.organize_remaining_folders()
>> *)
Definition organize : directory → outcome :=
  create_folders >> organize_files >> organize_remaining_files >>
  organize_remaining_folders.

End Methods.

(** ** Example inputs *)

(** a home-directory lookup that knows the current user only *)
Definition home_of (user : string) : option string :=
  if String.eqb user "" then Some "/home/user" else None.

(** the organizer [DirectoryOrganizer()] builds with that home *)
Definition default_self : DirectoryOrganizer :=
  {| target_dir := Pathlib.parse_parts ["/home/user"; "Downloads"];
     org_directories := ORG_DIRECTORIES |}.

(** a download folder with [Other] and [FOLDERS] already there *)
Definition downloads : directory :=
  list_to_map
    [ ("photo.JPG", File "jpeg data"); ("notes.txt", File "some notes");
      ("archive.zip", File "zip data"); ("mystery.xyz", File "who knows");
      ("no_ext_file", File "plain"); (".bashrc", File "alias ll");
      ("slides.pptx", File "deck");
      ("OldStuff", Dir {[ "old.txt" := File "old" ]});
      ("Other", Dir ∅); ("FOLDERS", Dir ∅) ].

(** the same folder once the category folders are made *)
Definition prepared_downloads : directory :=
  state_of (create_folders default_self downloads).

(** the same folder after the classification of the files *)
Definition classified_downloads : directory :=
  state_of (organize_files posix_policy listdir_keys default_self
              prepared_downloads).

(** the same folder after the sweep of the files *)
Definition swept_downloads : directory :=
  state_of (organize_remaining_files posix_policy listdir_keys
              classified_downloads).



(** the same folder on a first run: neither [Other] nor [FOLDERS] *)
Definition fresh_downloads : directory :=
  delete "Other" (delete "FOLDERS" downloads).

(** the default organizer with its categories in the opposite order *)
Definition reversed_self : DirectoryOrganizer :=
  with_mapping default_self (reverse ORG_DIRECTORIES).


(** a download folder in which regular files bear the names of the two
    sweep folders *)
Definition sweep_blocked_downloads : directory :=
  list_to_map
    [ ("Other", File "a file"); ("FOLDERS", File "a file too");
      ("mystery.xyz", File "who knows"); ("OldStuff", Dir ∅) ].

(** a mapping that lists ['.txt'] under two categories *)
Definition twice_listed : DirectoryOrganizer :=
  {| target_dir := Pathlib.parse_parts ["/home/user"; "Downloads"];
     org_directories := [("Notes", [".txt"; ".md"]); ("Text", [".txt"])] |}.

Definition two_folders : directory :=
  list_to_map
    [ ("Notes", Dir ∅); ("Text", Dir ∅); ("todo.txt", File "buy milk") ].

(** * Facts about strings and suffixes *)

Module StrFacts.
Import Str.

Lemma len_nonneg s : (0 ≤ len s)%Z.
Proof. unfold len. lia. Qed.

Lemma len_cons a s : len (String a s) = (len s + 1)%Z.
Proof. unfold len. simpl. lia. Qed.

Lemma app_nil s : "" ++ s = s.
Proof. reflexivity. Qed.

Lemma app_cons a s t : String a s ++ t = String a (s ++ t).
Proof. reflexivity. Qed.

Lemma len_app s t : len (s ++ t) = (len s + len t)%Z.
Proof.
  induction s as [|a s IH].
  - rewrite app_nil. unfold len. simpl. lia.
  - rewrite app_cons, !len_cons, IH. lia.
Qed.

Lemma len_zero s : len s = 0%Z → s = "".
Proof. destruct s; [done|]. rewrite len_cons. pose proof (len_nonneg s). lia. Qed.

Lemma nonempty_len s : nonempty s = true ↔ (0 < len s)%Z.
Proof.
  destruct s; simpl.
  - unfold len. simpl. split; [done | lia].
  - rewrite len_cons. pose proof (len_nonneg s). split; [lia | done].
Qed.

Lemma rfind_from_absent c s i : occurs c s = false → rfind_from c s i = (-1)%Z.
Proof.
  revert i. induction s as [|a s IH]; intros i H; simpl in *; [done|].
  apply orb_false_iff in H as [Ha Hs]. rewrite (IH _ Hs), Ha. done.
Qed.

Lemma rfind_from_last c pre t i :
  (0 ≤ i)%Z → occurs c t = false →
  rfind_from c (pre ++ String c t) i = (i + len pre)%Z.
Proof.
  intros Hi Ht. revert i Hi. induction pre as [|a pre IH]; intros i Hi.
  - rewrite app_nil. simpl.
    rewrite (rfind_from_absent _ _ _ Ht). simpl. rewrite Ascii.eqb_refl.
    unfold len. simpl. lia.
  - rewrite app_cons. simpl. rewrite IH by lia. rewrite len_cons.
    pose proof (len_nonneg pre).
    destruct (Z.leb_spec 0 (i + 1 + len pre)); [lia | lia].
Qed.

Lemma occurs_split c s :
  occurs c s = true → ∃ pre t, s = pre ++ String c t ∧ occurs c t = false.
Proof.
  induction s as [|a s IH]; simpl; [done|]. intros H.
  destruct (occurs c s) eqn:Hs.
  - destruct (IH eq_refl) as (pre & t & -> & Ht).
    by exists (String a pre), t.
  - rewrite orb_false_r in H. apply Ascii.eqb_eq in H as ->.
    by exists "", s.
Qed.

Lemma drop_app_len pre t : drop (String.length pre) (pre ++ t) = t.
Proof. induction pre; [done|]. by rewrite app_cons. Qed.

Lemma slice_from_len pre t : slice_from (len pre) (pre ++ t) = t.
Proof. unfold slice_from, len. rewrite Nat2Z.id. apply drop_app_len. Qed.

(** The suffix of a name that is cut at its last dot: the dot and what
    follows, unless nothing stands before the dot or nothing after it. *)
Lemma suffix_at_last_dot pre t :
  occurs "." t = false →
  suffix (pre ++ String "." t) =
    if nonempty pre && nonempty t then String "." t else "".
Proof.
  intros Ht. unfold suffix, rfind.
  rewrite (rfind_from_last _ _ _ _ (Z.le_refl 0) Ht).
  rewrite len_app, len_cons, Z.add_0_l, slice_from_len.
  pose proof (nonempty_len pre) as Hp. pose proof (nonempty_len t) as Hq.
  pose proof (len_nonneg pre). pose proof (len_nonneg t).
  destruct (nonempty pre), (nonempty t); simpl;
    destruct (Z.ltb_spec 0 (len pre)); destruct (Z.ltb_spec (len pre) (len pre + (len t + 1) - 1));
    simpl; try done; intuition lia.
Qed.

Lemma suffix_no_dot name : occurs "." name = false → suffix name = "".
Proof.
  intros H. unfold suffix, rfind. by rewrite (rfind_from_absent _ _ _ H).
Qed.

(** A suffix is empty or starts with a dot. *)
Lemma suffix_cases name :
  suffix name = "" ∨
  ∃ pre t, name = pre ++ String "." t ∧ nonempty pre = true ∧
           nonempty t = true ∧ occurs "." t = false ∧
           suffix name = String "." t.
Proof.
  destruct (occurs "." name) eqn:Hd.
  - destruct (occurs_split _ _ Hd) as (pre & t & -> & Ht).
    rewrite (suffix_at_last_dot _ _ Ht).
    destruct (nonempty pre) eqn:Hp, (nonempty t) eqn:Hq; simpl; eauto 10.
  - left. by apply suffix_no_dot.
Qed.

Lemma lower_first a s : lower (String a s) = String (lower_char a) (lower s).
Proof. done. Qed.

Lemma lower_dot s : lower (String "." s) = String "." (lower s).
Proof. done. Qed.

(** A lowered suffix is empty or starts with a dot. *)
Lemma lower_suffix_cases name :
  lower (suffix name) = "" ∨ ∃ t, lower (suffix name) = String "." t.
Proof.
  destruct (suffix_cases name) as [-> | (pre & t & _ & _ & _ & _ & ->)]; eauto.
Qed.



End StrFacts.

(** * Facts about the file-system primitives and the loops *)

Section Loops.
Context {A : Type} `{EqDecision A}.
Variable body : A → directory → outcome.

Lemma for_each_state_inv (P : directory → Prop) xs d :
  (∀ y d, y ∈ xs → P d → P (state_of (body y d))) →
  P d → P (state_of (for_each body xs d)).
Proof.
  revert d. induction xs as [|y xs IH]; intros d Hb Hd; simpl; [done|].
  pose proof (Hb y d (list_elem_of_here _ _) Hd) as Hy.
  destruct (body y d); simpl in *; [|done].
  apply IH; [|done]. intros z d1 Hz. apply Hb. by right.
Qed.

Lemma for_each_Done_inv (Q : directory → Prop) xs d d' :
  (∀ y d d1, y ∈ xs → Q d → body y d = Done d1 → Q d1) →
  Q d → for_each body xs d = Done d' → Q d'.
Proof.
  revert d. induction xs as [|y xs IH]; intros d Hb Hd; simpl.
  - by intros [= <-].
  - destruct (body y d) as [d1|] eqn:Hy; [|done].
    apply IH.
    + intros z d2 d3 Hz. apply Hb. by right.
    + apply (Hb y d d1); [by left | done..].
Qed.

(** A loop that reaches [x]: [P] holds until [x] is handled, [Q] from
    then on. *)
Lemma for_each_phases (P Q : directory → Prop) x xs d d' :
  x ∈ xs → P d →
  (∀ y d d1, y ∈ xs → y ≠ x → P d → body y d = Done d1 → P d1) →
  (∀ d d1, P d → body x d = Done d1 → Q d1) →
  (∀ y d d1, y ∈ xs → Q d → body y d = Done d1 → Q d1) →
  for_each body xs d = Done d' → Q d'.
Proof.
  intros Hx Hd HP HPQ HQ. revert d Hd.
  induction xs as [|y xs IH]; intros d Hd; [by apply elem_of_nil in Hx|].
  simpl. destruct (body y d) as [d1|] eqn:Hy; [|done]. intros Hrest.
  destruct (decide (y = x)) as [->|Hne].
  - eapply for_each_Done_inv; [ | | exact Hrest].
    + intros z d2 d3 Hz. apply HQ. by right.
    + by apply (HPQ d).
  - apply elem_of_cons in Hx as [->|Hx]; [done|].
    apply (IH Hx) with (d := d1); [ | | | exact Hrest].
    + intros z d2 d3 Hz. apply HP. by right.
    + intros z d2 d3 Hz. apply HQ. by right.
    + apply (HP y d); [by left | done..].
Qed.

(** A loop that reaches an [x] on which the body raises, raises. *)
Lemma for_each_raises (P : directory → Prop) x xs d :
  x ∈ xs → P d →
  (∀ y d d1, y ∈ xs → y ≠ x → P d → body y d = Done d1 → P d1) →
  (∀ d, P d → ∃ e d1, body x d = Raised e d1) →
  ∃ e d1, for_each body xs d = Raised e d1.
Proof.
  intros Hx Hd HP Hr. revert d Hd.
  induction xs as [|y xs IH]; intros d Hd; [by apply elem_of_nil in Hx|].
  simpl. destruct (decide (y = x)) as [->|Hne].
  - destruct (Hr d Hd) as (e & d1 & ->). eauto.
  - apply elem_of_cons in Hx as [->|Hx]; [done|].
    destruct (body y d) as [d1|e d1] eqn:Hy; [|eauto].
    apply (IH Hx).
    + intros z d2 d3 Hz. apply HP. by right.
    + apply (HP y d); [by left | done..].
Qed.

(** A loop whose body changes nothing and raises [e] on some element
    raises [e] with the state unchanged. *)
Lemma for_each_stuck e xs d :
  (∀ y, y ∈ xs → body y d = Done d ∨ body y d = Raised e d) →
  (∃ x, x ∈ xs ∧ body x d = Raised e d) →
  for_each body xs d = Raised e d.
Proof.
  induction xs as [|y xs IH]; intros Hall (x & Hx & Hr).
  - by apply elem_of_nil in Hx.
  - simpl. destruct (Hall y) as [Hy|Hy]; [by left | |]; rewrite Hy; [|done].
    apply IH.
    + intros z Hz. apply Hall. by right.
    + apply elem_of_cons in Hx as [->|Hx]; [congruence | eauto].
Qed.


Lemma for_each_skip xs d :
  (∀ y, y ∈ xs → body y d = Done d) → for_each body xs d = Done d.
Proof.
  induction xs as [|y xs IH]; intros Hall; simpl; [done|].
  rewrite Hall by (by left). apply IH. intros z Hz. apply Hall. by right.
Qed.

End Loops.

Lemma and_then_Done f g d d' :
  (f >> g) d = Done d' ↔ ∃ d1, f d = Done d1 ∧ g d1 = Done d'.
Proof.
  unfold and_then. split.
  - destruct (f d) as [d1|]; [eauto | done].
  - by intros (d1 & -> & ?).
Qed.

Lemma and_then_state_inv (P : directory → Prop) f g d :
  (∀ d, P d → P (state_of (f d))) → (∀ d, P d → P (state_of (g d))) →
  P d → P (state_of ((f >> g) d)).
Proof.
  intros Hf Hg Hd. unfold and_then. specialize (Hf d Hd).
  destruct (f d); simpl in *; auto.
Qed.

Section Primitives.

Variable on_collision : collision_policy.

Lemma rename_into_cases sub n d :
  (∃ e, rename_into on_collision sub n d = Raised e d) ∨
  (∃ kids src, d !! sub = Some (Dir kids) ∧ d !! n = Some src ∧ sub ≠ n ∧
     rename_into on_collision sub n d
     = Done (<[sub := Dir (<[n := src]> kids)]> (delete n d))).
Proof.
  unfold rename_into.
  destruct (d !! sub) as [[c|kids]|]; [eauto | | eauto].
  destruct (d !! n) as [src|]; [|eauto].
  case_decide; [eauto|].
  destruct (kids !! n) as [old|]; [|right; eauto 10].
  destruct (on_collision src old); [eauto | right; eauto 10].
Qed.

Lemma rename_into_Done sub n d d' :
  rename_into on_collision sub n d = Done d' →
  ∃ kids src, d !! sub = Some (Dir kids) ∧ d !! n = Some src ∧ sub ≠ n ∧
    d' = <[sub := Dir (<[n := src]> kids)]> (delete n d).
Proof.
  destruct (rename_into_cases sub n d) as [(e & ->) | (kids & src & ? & ? & ? & ->)];
    [done|]. intros [= <-]. eauto 10.
Qed.

(** a missing source or a missing destination folder: [FileNotFoundError],
    nothing changed *)
Lemma rename_into_missing sub n d :
  d !! sub = None ∨ (is_dir d sub = true ∧ d !! n = None) →
  rename_into on_collision sub n d = Raised FileNotFoundError d.
Proof.
  unfold rename_into, is_dir. intros [-> | [Hs ->]]; [done|].
  by destruct (d !! sub) as [[]|].
Qed.

Lemma rename_into_keeps_file sub n d k c :
  d !! k = Some (File c) → n ≠ k →
  state_of (rename_into on_collision sub n d) !! k = Some (File c).
Proof.
  intros Hk Hn.
  destruct (rename_into_cases sub n d) as [(e & ->) | (kids & src & Hs & ? & ? & ->)];
    simpl; [done|].
  rewrite lookup_insert_ne by congruence. by rewrite lookup_delete_ne.
Qed.

Lemma rename_into_keeps_dir sub n d k :
  is_dir d k = true → n ≠ k →
  is_dir (state_of (rename_into on_collision sub n d)) k = true.
Proof.
  intros Hk Hn.
  destruct (rename_into_cases sub n d) as [(e & ->) | (kids & src & Hs & ? & ? & ->)];
    simpl; [done|]. unfold is_dir.
  destruct (decide (sub = k)) as [->|].
  - by rewrite lookup_insert_eq.
  - rewrite lookup_insert_ne by done. by rewrite lookup_delete_ne.
Qed.

Lemma rename_into_keeps_none sub n d k :
  d !! k = None →
  state_of (rename_into on_collision sub n d) !! k = None.
Proof.
  intros Hk.
  destruct (rename_into_cases sub n d) as [(e & ->) | (kids & src & Hs & ? & ? & ->)];
    simpl; [done|].
  rewrite lookup_insert_ne by congruence.
  destruct (decide (n = k)) as [->|]; [apply lookup_delete_eq|].
  by rewrite lookup_delete_ne.
Qed.

(** what a finished move of a regular file does to the second level *)
Lemma rename_into_entry_at sub n d d' k m :
  rename_into on_collision sub n d = Done d' → is_file d n = true →
  entry_at d' k m =
    if decide (k = sub ∧ m = n) then d !! n else entry_at d k m.
Proof.
  intros H Hf. apply rename_into_Done in H as (kids & src & Hs & Hn & Hne & ->).
  unfold entry_at, is_file in *. rewrite Hn in Hf.
  destruct (decide (k = sub)) as [->|Hk].
  - rewrite lookup_insert_eq, Hs.
    destruct (decide (m = n)) as [->|Hm].
    + rewrite decide_True by done. by rewrite lookup_insert_eq.
    + rewrite decide_False by (by intros [_ ?]). by rewrite lookup_insert_ne.
  - rewrite decide_False by (by intros [? _]). rewrite lookup_insert_ne by done.
    destruct (decide (k = n)) as [->|].
    + rewrite lookup_delete_eq, Hn. by destruct src.
    + by rewrite lookup_delete_ne.
Qed.

(** a finished move of something that is not a directory leaves every
    other name as it was, at the top and one level down *)
Lemma rename_into_frame sub n d d' k :
  rename_into on_collision sub n d = Done d' →
  n ≠ k → is_dir d k = false → is_dir d n = false →
  d' !! n = None ∧ d' !! k = d !! k ∧
  ∀ s, entry_at d' s k = entry_at d s k.
Proof.
  intros H Hnk Hk Hn.
  apply rename_into_Done in H as (kids & src & Hs & Hsrc & Hne & ->).
  assert (sub ≠ k) as Hsk.
  { intros ->. unfold is_dir in Hk. by rewrite Hs in Hk. }
  split_and!.
  - rewrite lookup_insert_ne by done. apply lookup_delete_eq.
  - rewrite lookup_insert_ne by done. by rewrite lookup_delete_ne.
  - intros s. unfold entry_at. destruct (decide (s = sub)) as [->|Hss].
    + rewrite lookup_insert_eq, Hs. by rewrite lookup_insert_ne.
    + rewrite lookup_insert_ne by done.
      destruct (decide (s = n)) as [->|].
      * rewrite lookup_delete_eq, Hsrc. unfold is_dir in Hn.
        rewrite Hsrc in Hn. by destruct src.
      * by rewrite lookup_delete_ne.
Qed.

Lemma mkdir_exist_ok_cases x d :
  (is_file d x = true ∧ mkdir_exist_ok x d = Raised FileExistsError d) ∨
  (is_dir d x = true ∧ mkdir_exist_ok x d = Done d) ∨
  (d !! x = None ∧ mkdir_exist_ok x d = Done (<[x := Dir ∅]> d)).
Proof.
  unfold mkdir_exist_ok, is_file, is_dir.
  destruct (d !! x) as [[]|]; auto.
Qed.

Lemma mkdir_exist_ok_keeps x d k v :
  d !! k = Some v → state_of (mkdir_exist_ok x d) !! k = Some v.
Proof.
  intros Hk.
  destruct (mkdir_exist_ok_cases x d) as [[_ ->] | [[_ ->] | [Hx ->]]];
    simpl; [done..|].
  rewrite lookup_insert_ne; [done | congruence].
Qed.

Lemma mkdir_exist_ok_keeps_none x d k :
  d !! k = None → x ≠ k → state_of (mkdir_exist_ok x d) !! k = None.
Proof.
  intros Hk Hne.
  destruct (mkdir_exist_ok_cases x d) as [[_ ->] | [[_ ->] | [Hx ->]]];
    simpl; [done..|]. by rewrite lookup_insert_ne.
Qed.

Lemma mkdir_exist_ok_is_dir x d d' :
  mkdir_exist_ok x d = Done d' → is_dir d' x = true.
Proof.
  destruct (mkdir_exist_ok_cases x d) as [[_ ->] | [[? ->] | [Hx ->]]];
    [done | by intros [= <-] |].
  intros [= <-]. unfold is_dir. by rewrite lookup_insert_eq.
Qed.

Lemma mkdir_exist_ok_again x d :
  is_dir d x = true → mkdir_exist_ok x d = Done d.
Proof. unfold is_dir, mkdir_exist_ok. by destruct (d !! x) as [[]|]. Qed.

End Primitives.

Lemma for_each_ext {A} (body body' : A → directory → outcome) xs d :
  (∀ x d, x ∈ xs → body x d = body' x d) →
  for_each body xs d = for_each body' xs d.
Proof.
  revert d. induction xs as [|x xs IH]; intros d H; simpl; [done|].
  rewrite <- H by (by left). destruct (body x d); [|done].
  apply IH. intros y d1 Hy. apply H. by right.
Qed.

(** * Facts about the mapping *)

Lemma getitem_keys (m : mapping) k : k ∈ keys m → is_Some (getitem m k).
Proof.
  unfold keys. induction m as [|[k' v] m IH]; simpl.
  - by intros ?%elem_of_nil.
  - intros [->|H]%elem_of_cons.
    + rewrite String.eqb_refl. eauto.
    + destruct (String.eqb k' k); eauto.
Qed.

Lemma getitem_Some_keys (m : mapping) k v : getitem m k = Some v → k ∈ keys m.
Proof.
  unfold keys. induction m as [|[k' v'] m IH]; simpl; [done|].
  destruct (String.eqb_spec k' k) as [->|]; [left | right; auto].
Qed.

Lemma keys_without_tokens drop m : keys (without_tokens drop m) = keys m.
Proof.
  unfold keys, without_tokens. induction m as [|[k v] m IH]; [done|].
  csimpl. by f_equal.
Qed.

Lemma getitem_without_tokens drop m k :
  getitem (without_tokens drop m) k = filter (λ e, e ∉ drop) <$> getitem m k.
Proof.
  unfold without_tokens. induction m as [|[k' v] m IH]; simpl; [done|].
  by destruct (String.eqb k' k).
Qed.

Lemma listed_without_tokens drop m k ext :
  ext ∉ drop → listed (without_tokens drop m) k ext = listed m k ext.
Proof.
  intros Hext. unfold listed. rewrite getitem_without_tokens.
  destruct (getitem m k) as [exts|]; simpl; [|done].
  apply bool_decide_ext. rewrite list_elem_of_filter.
  split; [by intros [_ ?] | intros ?; split; [congruence | done]].
Qed.

Lemma getitem_elem (m : mapping) k v : getitem m k = Some v → (k, v) ∈ m.
Proof.
  induction m as [|[k' v'] m IH]; simpl; [done|].
  destruct (String.eqb_spec k' k) as [->|].
  - intros [= ->]. by left.
  - intros H. right. auto.
Qed.

Lemma exclusive_spec (m : mapping) cat exts ext k :
  exclusive m = true → getitem m cat = Some exts → ext ∈ exts →
  k ≠ cat → listed m k ext = false.
Proof.
  intros Hex Hcat Hext Hne. unfold listed.
  destruct (getitem m k) as [v|] eqn:Hk; [|done].
  apply getitem_elem, list_elem_of_In in Hcat, Hk.
  unfold exclusive in Hex. rewrite forallb_forall in Hex.
  specialize (Hex _ Hcat). simpl in Hex. rewrite forallb_forall in Hex.
  apply list_elem_of_In in Hext. specialize (Hex _ Hext).
  rewrite forallb_forall in Hex. specialize (Hex _ Hk). simpl in Hex.
  apply orb_true_iff in Hex as [Hex|Hex].
  - by apply String.eqb_eq in Hex.
  - apply negb_true_iff in Hex. done.
Qed.

Lemma unlisted_by_table (m : mapping) e name :
  forallb (λ k, negb (listed m k e)) (keys m) = true →
  Str.lower (suffix name) = e → unlisted m name.
Proof.
  intros Hall He k Hk. rewrite forallb_forall in Hall.
  apply list_elem_of_In in Hk. specialize (Hall _ Hk).
  rewrite He. by apply negb_true_iff in Hall.
Qed.

(** ** The default table *)

Lemma default_keys :
  keys ORG_DIRECTORIES =
  ["Documents"; "Plaintext"; "PDFs"; "Images"; "Audio"; "Videos";
   "Archives"; "Scripts"].
Proof. reflexivity. Qed.

Lemma default_keys_NoDup : NoDup (keys ORG_DIRECTORIES).
Proof. apply (bool_decide_unpack _). by vm_compute. Qed.

Lemma default_exclusive : exclusive ORG_DIRECTORIES = true.
Proof. by vm_compute. Qed.

Lemma Other_not_default_key : "Other" ∉ keys ORG_DIRECTORIES.
Proof. apply (bool_decide_unpack _). by vm_compute. Qed.

Lemma FOLDERS_not_default_key : "FOLDERS" ∉ keys ORG_DIRECTORIES.
Proof. apply (bool_decide_unpack _). by vm_compute. Qed.

(** every dotted extension of the default table is lower case and is the
    suffix of some file name *)
Lemma default_extensions_are_suffixes cat exts ext :
  getitem ORG_DIRECTORIES cat = Some exts → ext ∈ exts →
  Str.first1 ext = "." →
  suffix ("x" ++ ext) = ext ∧ Str.lower ext = ext.
Proof.
  intros Hcat Hext Hdot.
  assert (forallb (λ kv : string * list string,
            forallb (λ e, negb (String.eqb (Str.first1 e) ".")
                          || (String.eqb (suffix ("x" ++ e)) e
                              && String.eqb (Str.lower e) e)) kv.2)
            ORG_DIRECTORIES = true) as Hall by (by vm_compute).
  rewrite forallb_forall in Hall.
  apply getitem_elem, list_elem_of_In in Hcat.
  specialize (Hall _ Hcat). simpl in Hall. rewrite forallb_forall in Hall.
  apply list_elem_of_In in Hext. specialize (Hall _ Hext).
  rewrite Hdot in Hall. simpl in Hall.
  apply andb_true_iff in Hall as [H1 H2].
  by apply String.eqb_eq in H1, H2.
Qed.

(** * Facts about the methods *)

Section MethodFacts.

Variable on_collision : collision_policy.
Variable listdir : directory → list string.
Hypothesis listdir_spec : ∀ d, listdir d ≡ₚ (map_to_list d).*1.
Variable self : DirectoryOrganizer.

(** the methods of another organizer *)
#[local] Abbreviation classify_of := classify.
#[local] Abbreviation organize_files_of := organize_files.

(** the methods of [self] *)
#[local] Abbreviation m := (org_directories self).
#[local] Abbreviation rename_into := (rename_into on_collision).
#[local] Abbreviation classify := (classify on_collision self).
#[local] Abbreviation create_folders := (create_folders self).
#[local] Abbreviation organize_files_step :=
  (organize_files_step on_collision self).
#[local] Abbreviation organize_files :=
  (organize_files on_collision listdir self).
#[local] Abbreviation organize_remaining_files_step :=
  (organize_remaining_files_step on_collision).
#[local] Abbreviation organize_remaining_files :=
  (organize_remaining_files on_collision listdir).
#[local] Abbreviation organize_remaining_folders_step :=
  (organize_remaining_folders_step on_collision self).
#[local] Abbreviation organize_remaining_folders :=
  (organize_remaining_folders on_collision listdir self).
#[local] Abbreviation organize := (organize on_collision listdir self).

Lemma listdir_complete d n x : d !! n = Some x → n ∈ listdir d.
Proof.
  intros H. rewrite listdir_spec. apply list_elem_of_fmap.
  exists (n, x). split; [done|]. by apply elem_of_map_to_list.
Qed.

(** ** The inner loop *)

Lemma classify_listed name k d :
  listed m k (Str.lower (suffix name)) = true →
  classify name k d = rename_into k name d.
Proof.
  unfold listed, classify. destruct (getitem m k); [|done]. by intros ->.
Qed.

Lemma classify_not_listed name k d :
  k ∈ keys m → listed m k (Str.lower (suffix name)) = false →
  classify name k d = Done d.
Proof.
  intros [exts He]%getitem_keys. unfold listed, classify. rewrite He.
  by intros ->.
Qed.

Lemma classify_cases name k d :
  k ∈ keys m →
  classify name k d = Done d ∨ classify name k d = rename_into k name d.
Proof.
  intros Hk. destruct (listed m k (Str.lower (suffix name))) eqn:Hl.
  - right. by apply classify_listed.
  - left. by apply classify_not_listed.
Qed.

Lemma inner_not_listed name ks d :
  ks ⊆ keys m →
  (∀ k, k ∈ ks → listed m k (Str.lower (suffix name)) = false) →
  for_each (classify name) ks d = Done d.
Proof.
  intros Hks Hno. apply for_each_skip. intros k Hk.
  apply classify_not_listed; auto.
Qed.

(** the source is gone: the first category that lists the suffix raises *)
Lemma inner_source_gone name ks d :
  ks ⊆ keys m → d !! name = None →
  (∃ k, k ∈ ks ∧ listed m k (Str.lower (suffix name)) = true) →
  ∃ e d1, for_each (classify name) ks d = Raised e d1.
Proof.
  intros Hks Hn (k & Hk & Hl).
  apply (for_each_raises (classify name) (λ d, d !! name = None) k); [done..| |].
  - intros y d0 d1 Hy' _ Hd0 Hy.
    destruct (classify_cases name y d0) as [E|E]; [by apply Hks | congruence |].
    rewrite E in Hy.
    pose proof (rename_into_keeps_none on_collision y name d0 name Hd0) as Hkeep.
    by rewrite Hy in Hkeep.
  - intros d0 Hd0. rewrite (classify_listed _ _ _ Hl).
    destruct (rename_into_cases on_collision k name d0)
      as [(e & ->) | (kids & src & _ & Hsrc & _)]; [eauto | congruence].
Qed.

Lemma classify_state (P : directory → Prop) name k d :
  P d → P (state_of (rename_into k name d)) →
  P (state_of (classify name k d)).
Proof.
  intros Hd Hr. unfold classify. destruct (getitem m k); [|done].
  by case_bool_decide.
Qed.

Lemma classify_Done name k d d1 :
  classify name k d = Done d1 → d1 = d ∨ rename_into k name d = Done d1.
Proof.
  unfold classify. destruct (getitem m k); [|done].
  case_bool_decide; [by right | intros [= <-]; by left].
Qed.

(** ** [create_folders] *)

Lemma create_folders_keeps d k v :
  d !! k = Some v → state_of (create_folders d) !! k = Some v.
Proof.
  apply (for_each_state_inv mkdir_exist_ok (λ d, d !! k = Some v)).
  intros y d0 _. apply mkdir_exist_ok_keeps.
Qed.

Lemma create_folders_keeps_none d k :
  k ∉ keys m → d !! k = None → state_of (create_folders d) !! k = None.
Proof.
  intros Hk.
  apply (for_each_state_inv mkdir_exist_ok (λ d, d !! k = None)).
  intros y d0 Hy Hd0. apply mkdir_exist_ok_keeps_none; [done|].
  by intros ->.
Qed.

Lemma mkdir_loop_makes_dirs ks d d' :
  for_each mkdir_exist_ok ks d = Done d' → ∀ k, k ∈ ks → is_dir d' k = true.
Proof.
  revert d. induction ks as [|y ks IH]; intros d H k Hk;
    [by apply elem_of_nil in Hk|].
  simpl in H. destruct (mkdir_exist_ok y d) as [d1|] eqn:Hy; [|done].
  apply elem_of_cons in Hk as [->|Hk]; [|by eapply IH].
  apply mkdir_exist_ok_is_dir in Hy.
  apply (for_each_Done_inv mkdir_exist_ok (λ d, is_dir d y = true) ks d1);
    [|done..].
  intros z d2 d3 _ Hd2 Hz. unfold is_dir in *.
  destruct (d2 !! y) as [v|] eqn:Hv; [|done].
  pose proof (mkdir_exist_ok_keeps z d2 y v Hv) as Hkeep.
  rewrite Hz in Hkeep. simpl in Hkeep. by rewrite Hkeep.
Qed.

Lemma mkdir_loop_again ks d :
  (∀ k, k ∈ ks → is_dir d k = true) → for_each mkdir_exist_ok ks d = Done d.
Proof.
  intros H. apply for_each_skip. intros y Hy.
  by apply mkdir_exist_ok_again, H.
Qed.

(** ** [organize_files] *)

Lemma organize_files_step_keeps_file n d k c :
  d !! k = Some (File c) →
  Str.nonempty (suffix k) = false ∨ unlisted m k →
  state_of (organize_files_step n d) !! k = Some (File c).
Proof.
  intros Hk Hun. unfold organize_files_step.
  destruct (is_file d n && Str.nonempty (suffix n)) eqn:Hg; [|done].
  apply andb_true_iff in Hg as [Hf Hs].
  destruct (decide (n = k)) as [->|Hne].
  - destruct Hun as [Hun|Hun]; [congruence|].
    by rewrite inner_not_listed.
  - apply (for_each_state_inv (classify n) (λ d, d !! k = Some (File c)));
      [|done].
    intros y d0 _ Hd0. apply classify_state; [done|].
    by apply rename_into_keeps_file.
Qed.

Lemma organize_files_keeps_file d k c :
  d !! k = Some (File c) →
  Str.nonempty (suffix k) = false ∨ unlisted m k →
  state_of (organize_files d) !! k = Some (File c).
Proof.
  intros Hk Hun.
  apply (for_each_state_inv organize_files_step (λ d, d !! k = Some (File c)));
    [|done].
  intros y d0 _ Hd0. by apply organize_files_step_keeps_file.
Qed.

Lemma is_file_not_dir d n k : is_file d n = true → is_dir d k = true → n ≠ k.
Proof. unfold is_file, is_dir. intros Hn Hk ->. by destruct (d !! k) as [[]|]. Qed.

Lemma organize_files_step_keeps_dir n d k :
  is_dir d k = true → is_dir (state_of (organize_files_step n d)) k = true.
Proof.
  intros Hk. unfold organize_files_step.
  destruct (is_file d n && Str.nonempty (suffix n)) eqn:Hg; [|done].
  apply andb_true_iff in Hg as [Hf Hs].
  pose proof (is_file_not_dir _ _ _ Hf Hk) as Hne.
  apply (for_each_state_inv (classify n) (λ d, is_dir d k = true)); [|done].
  intros y d0 _ Hd0. apply classify_state; [done|].
  by apply rename_into_keeps_dir.
Qed.

Lemma organize_files_keeps_dir d k :
  is_dir d k = true → is_dir (state_of (organize_files d)) k = true.
Proof.
  apply (for_each_state_inv organize_files_step (λ d, is_dir d k = true)).
  intros y d0 _. apply organize_files_step_keeps_dir.
Qed.

Lemma organize_files_step_keeps_none n d k :
  d !! k = None → state_of (organize_files_step n d) !! k = None.
Proof.
  intros Hk. unfold organize_files_step.
  destruct (is_file d n && Str.nonempty (suffix n)); [|done].
  apply (for_each_state_inv (classify n) (λ d, d !! k = None)); [|done].
  intros y d0 _ Hd0. apply classify_state; [done|].
  by apply rename_into_keeps_none.
Qed.

Lemma organize_files_keeps_none d k :
  d !! k = None → state_of (organize_files d) !! k = None.
Proof.
  apply (for_each_state_inv organize_files_step (λ d, d !! k = None)).
  intros y d0 _. apply organize_files_step_keeps_none.
Qed.

(** ** [organize_remaining_files] *)

Lemma organize_remaining_files_step_keeps_file n d k c :
  d !! k = Some (File c) → Str.nonempty (suffix k) = false →
  state_of (organize_remaining_files_step n d) !! k = Some (File c).
Proof.
  intros Hk Hs. unfold organize_remaining_files_step.
  destruct (is_file d n && Str.nonempty (suffix n)) eqn:Hg; [|done].
  apply andb_true_iff in Hg as [_ Hn].
  apply rename_into_keeps_file; [done | congruence].
Qed.

Lemma organize_remaining_files_keeps_file d k c :
  d !! k = Some (File c) → Str.nonempty (suffix k) = false →
  state_of (organize_remaining_files d) !! k = Some (File c).
Proof.
  intros Hk Hs.
  apply (for_each_state_inv organize_remaining_files_step
           (λ d, d !! k = Some (File c))); [|done].
  intros y d0 _ Hd0. by apply organize_remaining_files_step_keeps_file.
Qed.

Lemma organize_remaining_files_keeps_dir d k :
  is_dir d k = true → is_dir (state_of (organize_remaining_files d)) k = true.
Proof.
  apply (for_each_state_inv organize_remaining_files_step
           (λ d, is_dir d k = true)).
  intros y d0 _ Hd0. unfold organize_remaining_files_step.
  destruct (is_file d0 y && Str.nonempty (suffix y)) eqn:Hg; [|done].
  apply andb_true_iff in Hg as [Hf _].
  apply rename_into_keeps_dir; [done|]. by eapply is_file_not_dir.
Qed.

Lemma organize_remaining_files_keeps_none d k :
  d !! k = None → state_of (organize_remaining_files d) !! k = None.
Proof.
  apply (for_each_state_inv organize_remaining_files_step
           (λ d, d !! k = None)).
  intros y d0 _ Hd0. unfold organize_remaining_files_step.
  destruct (is_file d0 y && Str.nonempty (suffix y)); [|done].
  by apply rename_into_keeps_none.
Qed.

(** ** [organize_remaining_folders] *)

Lemma folders_guard n d :
  is_dir d n && bool_decide (n ∉ keys m) && bool_decide (n ≠ "FOLDERS") = true
  ↔ is_dir d n = true ∧ (n ∉ keys m) ∧ n ≠ "FOLDERS".
Proof.
  rewrite !andb_true_iff, !bool_decide_eq_true. tauto.
Qed.

Lemma organize_remaining_folders_step_keeps_file n d k c :
  d !! k = Some (File c) →
  state_of (organize_remaining_folders_step n d) !! k = Some (File c).
Proof.
  intros Hk. unfold organize_remaining_folders_step.
  destruct ((is_dir d n && _) && _) eqn:Hg; [|done].
  apply folders_guard in Hg as (Hd & _ & _).
  apply rename_into_keeps_file; [done|].
  intros ->. unfold is_dir in Hd. by rewrite Hk in Hd.
Qed.

Lemma organize_remaining_folders_keeps_file d k c :
  d !! k = Some (File c) →
  state_of (organize_remaining_folders d) !! k = Some (File c).
Proof.
  apply (for_each_state_inv organize_remaining_folders_step
           (λ d, d !! k = Some (File c))).
  intros y d0 _. apply organize_remaining_folders_step_keeps_file.
Qed.

Lemma organize_remaining_folders_step_keeps_none n d k :
  d !! k = None →
  state_of (organize_remaining_folders_step n d) !! k = None.
Proof.
  intros Hk. unfold organize_remaining_folders_step.
  destruct ((is_dir d n && _) && _); [|done].
  by apply rename_into_keeps_none.
Qed.

(** ** The whole routine *)

(** A regular file without suffix stays where it is, whatever the run
    does and however it ends. *)
Lemma organize_keeps_extensionless d k c :
  d !! k = Some (File c) → Str.nonempty (suffix k) = false →
  state_of (organize d) !! k = Some (File c).
Proof.
  intros Hk Hs. unfold organize. revert d Hk.
  set (P := λ d : directory, d !! k = Some (File c)).
  change (∀ d, P d → P (state_of
    ((create_folders >> organize_files >> organize_remaining_files >>
      organize_remaining_folders) d))).
  intros d Hd.
  apply (and_then_state_inv P); [intros d0; apply create_folders_keeps | | done].
  clear d Hd. intros d Hd.
  apply (and_then_state_inv P);
    [intros d0 Hd0; apply organize_files_keeps_file; auto | | done].
  clear d Hd. intros d Hd.
  apply (and_then_state_inv P);
    [intros d0 Hd0; by apply organize_remaining_files_keeps_file | | done].
  intros d0. apply organize_remaining_folders_keeps_file.
Qed.

(** ** Comparing two mappings *)

Lemma classify_without_tokens drop name k d :
  Str.lower (suffix name) ∉ drop →
  classify_of on_collision (with_mapping self (without_tokens drop m)) name k d
  = classify name k d.
Proof.
  intros Hn. unfold classify. simpl. rewrite getitem_without_tokens.
  destruct (getitem m k) as [exts|]; simpl; [|done].
  erewrite bool_decide_ext; [done|]. rewrite list_elem_of_filter.
  split; [by intros [_ ?] | intros ?; split; [congruence | done]].
Qed.

Lemma organize_files_without_tokens drop d :
  (∀ name, Str.lower (suffix name) ∉ drop) →
  organize_files_of on_collision listdir
    (with_mapping self (without_tokens drop m)) d
  = organize_files d.
Proof.
  intros Hn. unfold organize_files. apply for_each_ext. intros n d0 _.
  unfold organize_files_step. simpl. rewrite keys_without_tokens.
  destruct (is_file d0 n && Str.nonempty (suffix n)); [|done].
  apply for_each_ext. intros k d1 _. by apply classify_without_tokens.
Qed.

(** ** The inner loop, continued *)

(** one category lists the suffix: the inner loop is one rename *)
Lemma inner_single name cat ks d :
  ks ⊆ keys m → NoDup ks → cat ∈ ks →
  listed m cat (Str.lower (suffix name)) = true →
  (∀ k, k ∈ ks → k ≠ cat → listed m k (Str.lower (suffix name)) = false) →
  for_each (classify name) ks d = rename_into cat name d.
Proof.
  intros Hks Hnd Hcat Hl Hothers. revert d.
  induction ks as [|y ks IH]; intros d; [by apply elem_of_nil in Hcat|].
  apply NoDup_cons in Hnd as [Hy Hnd]. simpl.
  destruct (decide (y = cat)) as [->|Hne].
  - rewrite (classify_listed _ _ _ Hl).
    destruct (rename_into cat name d) as [d1|]; [|done].
    apply inner_not_listed; [intros z Hz; apply Hks; by right|].
    intros k Hk. apply Hothers; [by right | by intros ->].
  - rewrite classify_not_listed;
      [ | apply Hks; by left | apply Hothers; [by left | done]].
    apply IH; [intros z Hz; apply Hks; by right | done | |].
    + apply elem_of_cons in Hcat as [->|]; done.
    + intros k Hk. apply Hothers. by right.
Qed.

(** two categories list the suffix: the inner loop raises *)
Lemma inner_two_raise name k1 k2 ks d :
  ks ⊆ keys m → k1 ∈ ks → k2 ∈ ks → k1 ≠ k2 →
  listed m k1 (Str.lower (suffix name)) = true →
  listed m k2 (Str.lower (suffix name)) = true →
  ∃ e d1, for_each (classify name) ks d = Raised e d1.
Proof.
  intros Hks H1 H2 Hne Hl1 Hl2. revert d.
  induction ks as [|y ks IH]; intros d; [by apply elem_of_nil in H1|].
  simpl. destruct (listed m y (Str.lower (suffix name))) eqn:Hy.
  - rewrite (classify_listed _ _ _ Hy).
    destruct (rename_into_cases on_collision y name d)
      as [(e & ->) | (kids & src & _ & _ & Hyn & ->)]; [eauto|].
    apply inner_source_gone; [intros z Hz; apply Hks; by right | |].
    + rewrite lookup_insert_ne by done. apply lookup_delete_eq.
    + destruct (decide (y = k1)) as [->|Hy1].
      * exists k2. split; [|done].
        apply elem_of_cons in H2 as [->|]; done.
      * exists k1. split; [|done].
        apply elem_of_cons in H1 as [->|]; done.
  - rewrite classify_not_listed; [ | apply Hks; by left | done].
    apply IH; [intros z Hz; apply Hks; by right | | ].
    + apply elem_of_cons in H1 as [->|]; [congruence | done].
    + apply elem_of_cons in H2 as [->|]; [congruence | done].
Qed.

(** ** Moves seen from another name *)

Lemma organize_files_step_keeps_other_file n d k c :
  n ≠ k → d !! k = Some (File c) →
  state_of (organize_files_step n d) !! k = Some (File c).
Proof.
  intros Hne Hk. unfold organize_files_step.
  destruct (is_file d n && Str.nonempty (suffix n)); [|done].
  apply (for_each_state_inv (classify n) (λ d, d !! k = Some (File c)));
    [|done].
  intros y d0 _ Hd0. apply classify_state; [done|].
  by apply rename_into_keeps_file.
Qed.

(** a finished turn for [n] leaves every other name that is not a
    directory as it was, at the top and one level down *)
Lemma organize_files_step_frame n d d1 k :
  n ≠ k → is_dir d k = false → organize_files_step n d = Done d1 →
  d1 !! k = d !! k ∧ ∀ s, entry_at d1 s k = entry_at d s k.
Proof.
  intros Hne Hk. unfold organize_files_step.
  destruct (is_file d n && Str.nonempty (suffix n)) eqn:Hg;
    [|by intros [= <-]].
  apply andb_true_iff in Hg as [Hf _]. intros H.
  assert (is_dir d n = false) as Hn.
  { unfold is_file, is_dir in *. by destruct (d !! n) as [[]|]. }
  pose (Inv := λ d' : directory,
          is_dir d' n = false ∧ d' !! k = d !! k ∧
          ∀ s, entry_at d' s k = entry_at d s k).
  assert (Inv d1) as (_ & ? & ?); [|done].
  apply (for_each_Done_inv (classify n) Inv (keys m) d d1); [ | done | done].
  intros y d2 d3 _ (Hn2 & Hk2 & He2) Hy.
  apply classify_Done in Hy as [->|Hy]; [done|].
  assert (is_dir d2 k = false) as Hk2'.
  { unfold is_dir in *. by rewrite Hk2. }
  destruct (rename_into_frame _ _ _ _ _ _ Hy Hne Hk2' Hn2) as (Hgone & Hk3 & He3).
  unfold Inv. split_and!.
  - unfold is_dir. by rewrite Hgone.
  - congruence.
  - intros s. by rewrite He3.
Qed.

Lemma state_of_Done (f : directory → outcome) d d' :
  f d = Done d' → state_of (f d) = d'.
Proof. by intros ->. Qed.

(** ** When [organize_files] returns *)

Lemma listed_once k k' e :
  exclusive m = true →
  listed m k e = true → listed m k' e = true → k = k'.
Proof.
  intros Hex Hk Hk'. destruct (decide (k = k')) as [|Hne]; [done|].
  unfold listed in Hk'. destruct (getitem m k') as [exts|] eqn:Hg; [|done].
  apply bool_decide_eq_true in Hk'.
  by rewrite (exclusive_spec m k' exts e k Hex Hg Hk' Hne) in Hk.
Qed.



(** * The properties *)

(** C7. [create_folders] is idempotent: after a call that returned, a
    second call returns too, leaves the directory exactly as the first
    call left it, and every category name is a sub-directory. *)
Theorem create_folders_idempotent d d' :
  create_folders d = Done d' →
  create_folders d' = Done d' ∧ ∀ k, k ∈ keys m → is_dir d' k = true.
Proof.
  intros H. pose proof (mkdir_loop_makes_dirs _ _ _ H) as Hdirs.
  split; [|done]. by apply mkdir_loop_again.
Qed.

(** C8. A regular file that is a direct child of the target directory
    and has an empty suffix is still there, unchanged, after each of the
    four steps and after the whole of [organize], whether the step or
    the run returns or raises. *)
Theorem extensionless_file_untouched d k c :
  d !! k = Some (File c) → suffix k = "" →
  state_of (create_folders d) !! k = Some (File c) ∧
  state_of (organize_files d) !! k = Some (File c) ∧
  state_of (organize_remaining_files d) !! k = Some (File c) ∧
  state_of (organize_remaining_folders d) !! k = Some (File c) ∧
  state_of (organize d) !! k = Some (File c).
Proof.
  intros Hk Hs.
  assert (Str.nonempty (suffix k) = false) as Hn by (by rewrite Hs).
  split_and!.
  - by apply create_folders_keeps.
  - apply organize_files_keeps_file; auto.
  - by apply organize_remaining_files_keeps_file.
  - by apply organize_remaining_folders_keeps_file.
  - by apply organize_keeps_extensionless.
Qed.

(** C9. A name that is a dot followed by characters without a further
    dot (['.bashrc']) has the empty suffix, so a regular file of that
    name stays where it is under [organize_files],
    [organize_remaining_files] and the whole of [organize]. *)
Theorem dotfile_is_extensionless d rest c :
  Str.occurs "." rest = false →
  d !! String "." rest = Some (File c) →
  suffix (String "." rest) = "" ∧
  state_of (organize_files d) !! String "." rest = Some (File c) ∧
  state_of (organize_remaining_files d) !! String "." rest = Some (File c) ∧
  state_of (organize d) !! String "." rest = Some (File c).
Proof.
  intros Hrest Hk.
  assert (suffix (String "." rest) = "") as Hs.
  { change (String "." rest) with ("" ++ String "." rest).
    by rewrite StrFacts.suffix_at_last_dot. }
  assert (Str.nonempty (suffix (String "." rest)) = false) as Hn
    by (by rewrite Hs).
  split_and!; [done | | |].
  - apply organize_files_keeps_file; auto.
  - by apply organize_remaining_files_keeps_file.
  - by apply organize_keeps_extensionless.
Qed.


(** C3. The two tokens of the default table without a leading dot match
    nothing: no lowered suffix equals ['pptx'] or ['svg'];
    a name ending in ['.pptx'] or ['.svg'] is listed under no category
    of the default mapping, and a regular file of that name is left in
    place by [organize_files]; and [organize_files] does the same with
    the two tokens as without them. *)
Theorem dotless_tokens_never_match :
  org_directories self = ORG_DIRECTORIES →
  (∀ name, Str.lower (suffix name) ≠ "pptx" ∧ Str.lower (suffix name) ≠ "svg") ∧
  (∀ pre name d c,
     name = pre ++ ".pptx" ∨ name = pre ++ ".svg" →
     unlisted m name ∧
     (d !! name = Some (File c) →
      state_of (organize_files d) !! name = Some (File c))) ∧
  (∀ d, organize_files d
        = organize_files_of on_collision listdir
            (with_mapping self (without_tokens ["pptx"; "svg"] m)) d).
Proof.
  intros Hm.
  assert (∀ name, Str.lower (suffix name) ≠ "pptx" ∧
                  Str.lower (suffix name) ≠ "svg") as Hne.
  { intros name.
    destruct (StrFacts.lower_suffix_cases name) as [-> | [t ->]]; done. }
  split_and!; [done | |].
  - intros pre name d c Hname.
    assert (unlisted m name) as Hun.
    { rewrite Hm.
      destruct Hname as [-> | ->].
      - pose proof (StrFacts.suffix_at_last_dot pre "pptx" eq_refl) as Hs.
        destruct (Str.nonempty pre); simpl in Hs.
        + apply (unlisted_by_table _ ".pptx"); [by vm_compute | by rewrite Hs].
        + apply (unlisted_by_table _ ""); [by vm_compute | by rewrite Hs].
      - pose proof (StrFacts.suffix_at_last_dot pre "svg" eq_refl) as Hs.
        destruct (Str.nonempty pre); simpl in Hs.
        + apply (unlisted_by_table _ ".svg"); [by vm_compute | by rewrite Hs].
        + apply (unlisted_by_table _ ""); [by vm_compute | by rewrite Hs]. }
    split; [done|]. intros Hd. apply organize_files_keeps_file; auto.
  - intros d. symmetry. apply organize_files_without_tokens.
    intros name [E|[E|[]%elem_of_nil]%elem_of_cons]%elem_of_cons;
      by destruct (Hne name).
Qed.

(** C5. Under the default mapping, let [ext] be an extension with a
    leading dot listed under category [cat], and [name] a regular file
    directly in the target directory whose suffix is [ext] in any mix
    of cases.  When [organize_files] returns, the file is at
    [cat/name] with its content, it is no longer at the top, and under
    no other folder has anything appeared or changed at that name. *)
Theorem organize_files_classifies d d' cat exts ext t name c :
  org_directories self = ORG_DIRECTORIES →
  getitem ORG_DIRECTORIES cat = Some exts → ext ∈ exts →
  ext = String "." t →
  Str.lower (suffix name) = ext →
  d !! name = Some (File c) →
  organize_files d = Done d' →
  d' !! name = None ∧
  entry_at d' cat name = Some (File c) ∧
  ∀ k, k ≠ cat → entry_at d' k name = entry_at d k name.
Proof.
  intros Hm Hcat Hext Hdot Hsuf Hname Hrun.
  assert (Str.nonempty (suffix name) = true) as Hne.
  { destruct (suffix name); [|done]. simpl in Hsuf. congruence. }
  assert (listed m cat (Str.lower (suffix name)) = true) as Hl.
  { unfold listed. rewrite Hm, Hcat, Hsuf. by apply bool_decide_eq_true. }
  pose (P := λ d0 : directory,
          d0 !! name = Some (File c) ∧
          ∀ k, entry_at d0 k name = entry_at d k name).
  pose (Q := λ d0 : directory,
          d0 !! name = None ∧ entry_at d0 cat name = Some (File c) ∧
          ∀ k, k ≠ cat → entry_at d0 k name = entry_at d k name).
  assert (Q d') as HQ; [|done].
  apply (for_each_phases organize_files_step P Q name (listdir d) d d');
    [by eapply listdir_complete | done | | | | done].
  - intros y d0 d1 _ Hy [Hd0 He0] Hstep.
    destruct (organize_files_step_frame y d0 d1 name Hy) as [Hd1 He1];
      [unfold is_dir; by rewrite Hd0 | done |].
    split; [congruence|]. intros k. by rewrite He1.
  - intros d0 d1 [Hd0 He0]. unfold organize_files_step.
    assert (is_file d0 name = true) as Hf by (unfold is_file; by rewrite Hd0).
    rewrite Hf, Hne. simpl.
    rewrite (inner_single name cat); [ | done | | | done |].
    + intros Hmove.
      pose proof (λ k n, rename_into_entry_at _ _ _ _ _ k n Hmove Hf) as He1.
      apply rename_into_Done in Hmove as (kids & src & _ & _ & Hcn & ->).
      split_and!.
      * rewrite lookup_insert_ne by done. apply lookup_delete_eq.
      * rewrite He1, decide_True by done. done.
      * intros k Hk. rewrite He1, decide_False by (by intros [? _]). apply He0.
    + rewrite Hm. apply default_keys_NoDup.
    + by eapply getitem_Some_keys; rewrite Hm.
    + intros k _ Hk. rewrite Hm, Hsuf.
      by eapply exclusive_spec; [apply default_exclusive | ..].
  - intros y d0 d1 _ (Hd0 & Hc0 & He0) Hstep.
    destruct (decide (y = name)) as [->|Hy].
    + unfold organize_files_step, is_file in Hstep. rewrite Hd0 in Hstep.
      simpl in Hstep. by injection Hstep as <-.
    + destruct (organize_files_step_frame y d0 d1 name Hy) as [Hd1 He1];
        [unfold is_dir; by rewrite Hd0 | done |].
      split_and!; [congruence | by rewrite He1 |].
      intros k Hk. rewrite He1. by apply He0.
Qed.

(** C2. When two distinct categories list the lowered suffix of a
    regular file that lies directly in the target directory,
    [organize_files] does not return: it raises. *)
Theorem extension_in_two_categories_raises d name c k1 k2 :
  k1 ≠ k2 →
  listed m k1 (Str.lower (suffix name)) = true →
  listed m k2 (Str.lower (suffix name)) = true →
  d !! name = Some (File c) → Str.nonempty (suffix name) = true →
  ∃ e d', organize_files d = Raised e d'.
Proof.
  intros Hne Hl1 Hl2 Hname Hs.
  assert (∀ k, listed m k (Str.lower (suffix name)) = true → k ∈ keys m)
    as Hkey.
  { intros k. unfold listed. destruct (getitem m k) eqn:Hk; [|done].
    intros _. by eapply getitem_Some_keys. }
  apply (for_each_raises organize_files_step
           (λ d0, d0 !! name = Some (File c)) name);
    [by eapply listdir_complete | done | |].
  - intros y d0 d1 _ Hy Hd0 Hstep.
    pose proof (organize_files_step_keeps_other_file y d0 name c Hy Hd0) as Hk.
    by rewrite Hstep in Hk.
  - intros d0 Hd0. unfold organize_files_step, is_file.
    rewrite Hd0, Hs. simpl.
    apply (inner_two_raise name k1 k2); auto.
Qed.

Lemma organize_remaining_files_step_frame n d d1 k :
  n ≠ k → is_dir d k = false → organize_remaining_files_step n d = Done d1 →
  d1 !! k = d !! k ∧ ∀ s, entry_at d1 s k = entry_at d s k.
Proof.
  intros Hne Hk. unfold organize_remaining_files_step.
  destruct (is_file d n && Str.nonempty (suffix n)) eqn:Hg;
    [|by intros [= <-]].
  apply andb_true_iff in Hg as [Hf _]. intros H.
  assert (is_dir d n = false) as Hn.
  { unfold is_file, is_dir in *. by destruct (d !! n) as [[]|]. }
  by destruct (rename_into_frame _ _ _ _ _ _ H Hne Hk Hn) as (_ & ? & ?).
Qed.

(** the sweep of the files moves a regular file with a suffix into
    [Other] *)
Lemma organize_remaining_files_moves d d' name c :
  d !! name = Some (File c) → Str.nonempty (suffix name) = true →
  organize_remaining_files d = Done d' →
  d' !! name = None ∧ entry_at d' "Other" name = Some (File c).
Proof.
  intros Hname Hs Hrun.
  apply (for_each_phases organize_remaining_files_step
           (λ d0, d0 !! name = Some (File c))
           (λ d0, d0 !! name = None ∧ entry_at d0 "Other" name = Some (File c))
           name (listdir d) d d');
    [by eapply listdir_complete | done | | | | done].
  - intros y d0 d1 _ Hy Hd0 Hstep.
    destruct (organize_remaining_files_step_frame y d0 d1 name Hy) as [Hd1 _];
      [unfold is_dir; by rewrite Hd0 | done | congruence].
  - intros d0 d1 Hd0. unfold organize_remaining_files_step.
    assert (is_file d0 name = true) as Hf by (unfold is_file; by rewrite Hd0).
    rewrite Hf, Hs. simpl. intros Hmove.
    pose proof (rename_into_entry_at _ _ _ _ _ "Other" name Hmove Hf) as He.
    rewrite decide_True in He by done.
    apply rename_into_Done in Hmove as (kids & src & _ & _ & Hon & ->).
    split; [|congruence].
    rewrite lookup_insert_ne by done. apply lookup_delete_eq.
  - intros y d0 d1 _ [Hd0 He0] Hstep.
    destruct (decide (y = name)) as [->|Hy].
    + unfold organize_remaining_files_step, is_file in Hstep.
      rewrite Hd0 in Hstep. simpl in Hstep. by injection Hstep as <-.
    + destruct (organize_remaining_files_step_frame y d0 d1 name Hy)
        as [Hd1 He1]; [unfold is_dir; by rewrite Hd0 | done |].
      split; [congruence | by rewrite He1].
Qed.

(** the sweep of the folders moves [Other], with all it holds, into
    [FOLDERS], unless [Other] is a category *)
Lemma organize_remaining_folders_moves_Other d d' held :
  "Other" ∉ keys m → d !! "Other" = Some (Dir held) →
  organize_remaining_folders d = Done d' →
  d' !! "Other" = None ∧ entry_at d' "FOLDERS" "Other" = Some (Dir held).
Proof.
  intros Hkey Hother Hrun.
  apply (for_each_phases organize_remaining_folders_step
           (λ d0, d0 !! "Other" = Some (Dir held))
           (λ d0, d0 !! "Other" = None ∧
                  entry_at d0 "FOLDERS" "Other" = Some (Dir held))
           "Other" (listdir d) d d');
    [by eapply listdir_complete | done | | | | done].
  - intros y d0 d1 _ Hy Hd0. unfold organize_remaining_folders_step.
    destruct ((is_dir d0 y && _) && _); [|by intros [= <-]].
    intros (kids & src & _ & _ & _ & ->)%rename_into_Done.
    rewrite lookup_insert_ne by done. by rewrite lookup_delete_ne.
  - intros d0 d1 Hd0. unfold organize_remaining_folders_step.
    replace ((is_dir d0 "Other" && _) && _) with true.
    2:{ symmetry. apply folders_guard.
        unfold is_dir. by rewrite Hd0. }
    intros (kids & src & Hf & Hsrc & _ & ->)%rename_into_Done.
    split.
    + rewrite lookup_insert_ne by done. apply lookup_delete_eq.
    + unfold entry_at. rewrite lookup_insert_eq, lookup_insert_eq. congruence.
  - intros y d0 d1 _ [Hd0 He0]. unfold organize_remaining_folders_step.
    destruct ((is_dir d0 y && _) && _) eqn:Hg; [|by intros [= <-]].
    apply folders_guard in Hg as (Hy & _ & _).
    assert (y ≠ "Other") as Hne.
    { intros ->. unfold is_dir in Hy. by rewrite Hd0 in Hy. }
    intros (kids & src & Hf & Hsrc & _ & ->)%rename_into_Done.
    split.
    + rewrite lookup_insert_ne by done. by rewrite lookup_delete_ne.
    + unfold entry_at in *. rewrite lookup_insert_eq, lookup_insert_ne by done.
      by rewrite Hf in He0.
Qed.

(** C1 (the code departs from the claim).  Under the default mapping,
    with [Other] there as a directory, take a regular file with a
    suffix that no category lists.  After every run of [organize] that
    returns, the target directory has no [Other] any more and the file
    is not at [Other/name]: the last step has moved [Other], with the
    file in it, into [FOLDERS]. *)
Theorem unmatched_file_ends_under_FOLDERS d d' held name c :
  org_directories self = ORG_DIRECTORIES →
  d !! "Other" = Some (Dir held) →
  d !! name = Some (File c) → Str.nonempty (suffix name) = true →
  unlisted m name →
  organize d = Done d' →
  d' !! "Other" = None ∧
  entry_at d' "Other" name = None ∧
  ∃ swept, entry_at d' "FOLDERS" "Other" = Some (Dir swept) ∧
           swept !! name = Some (File c).
Proof.
  intros Hm Hother Hname Hs Hun Hrun. unfold organize in Hrun.
  apply and_then_Done in Hrun as (d1 & H1 & Hrun).
  apply and_then_Done in Hrun as (d2 & H2 & Hrun).
  apply and_then_Done in Hrun as (d3 & H3 & H4).
  pose proof (create_folders_keeps d name _ Hname) as Hn1.
  rewrite H1 in Hn1. simpl in Hn1.
  pose proof (organize_files_keeps_file d1 name c Hn1 (or_intror Hun)) as Hn2.
  rewrite H2 in Hn2. simpl in Hn2.
  destruct (organize_remaining_files_moves d2 d3 name c Hn2 Hs H3)
    as [Hn3 He3].
  unfold entry_at in He3.
  destruct (d3 !! "Other") as [[|swept]|] eqn:Ho3; try done.
  destruct (organize_remaining_folders_moves_Other d3 d' swept) as [Ho He];
    [rewrite Hm; apply Other_not_default_key | done | done |].
  split_and!; [done | | eauto].
  unfold entry_at. by rewrite Ho.
Qed.

(** with no [Other] in the target directory, the sweep of the files
    raises at the first regular file that has a suffix *)
Lemma organize_remaining_files_without_Other d name c :
  d !! "Other" = None →
  d !! name = Some (File c) → Str.nonempty (suffix name) = true →
  organize_remaining_files d = Raised FileNotFoundError d.
Proof.
  intros Ho Hname Hs. apply for_each_stuck.
  - intros y _. unfold organize_remaining_files_step.
    destruct (is_file d y && Str.nonempty (suffix y)); [right | by left].
    apply rename_into_missing. by left.
  - exists name. split; [by eapply listdir_complete|].
    unfold organize_remaining_files_step, is_file. rewrite Hname, Hs. simpl.
    apply rename_into_missing. by left.
Qed.

(** with no [FOLDERS] in the target directory, the sweep of the folders
    raises at the first loose sub-directory *)
Lemma organize_remaining_folders_without_FOLDERS d name kids :
  d !! "FOLDERS" = None →
  d !! name = Some (Dir kids) → name ∉ keys m →
  organize_remaining_folders d = Raised FileNotFoundError d.
Proof.
  intros Hf Hname Hkey. apply for_each_stuck.
  - intros y _. unfold organize_remaining_folders_step.
    destruct ((is_dir d y && _) && _); [right | by left].
    apply rename_into_missing. by left.
  - exists name. split; [by eapply listdir_complete|].
    unfold organize_remaining_folders_step.
    replace ((is_dir d name && _) && _) with true.
    { apply rename_into_missing. by left. }
    symmetry. apply folders_guard. split_and!; [|done|congruence].
    unfold is_dir. by rewrite Hname.
Qed.


(** * Further properties of the methods *)

(** ** Moves seen from the top level *)

Lemma rename_into_top_frame sub n d k :
  k ≠ sub → k ≠ n → state_of (rename_into sub n d) !! k = d !! k.
Proof.
  intros Hs Hn.
  destruct (rename_into_cases on_collision sub n d)
    as [(e & ->) | (kids & src & _ & _ & _ & ->)]; simpl; [done|].
  rewrite lookup_insert_ne by done. by rewrite lookup_delete_ne.
Qed.

(** a move makes no regular file at the top level *)
Lemma rename_into_file_was_file sub n d k c :
  state_of (rename_into sub n d) !! k = Some (File c) →
  d !! k = Some (File c).
Proof.
  destruct (rename_into_cases on_collision sub n d)
    as [(e & ->) | (kids & src & _ & _ & _ & ->)]; simpl; [done|].
  destruct (decide (k = sub)) as [->|Hs]; [by rewrite lookup_insert_eq|].
  rewrite lookup_insert_ne by done.
  destruct (decide (k = n)) as [->|Hn]; [by rewrite lookup_delete_eq|].
  by rewrite lookup_delete_ne.
Qed.

(** a move makes no directory at the top level, the folder it moves into
    apart *)
Lemma rename_into_dir_was_dir sub n d k :
  k ≠ sub → is_dir (state_of (rename_into sub n d)) k = true →
  state_of (rename_into sub n d) !! k = d !! k.
Proof.
  intros Hs.
  destruct (rename_into_cases on_collision sub n d)
    as [(e & ->) | (kids & src & _ & _ & _ & ->)]; simpl; [done|].
  unfold is_dir. rewrite lookup_insert_ne by done.
  destruct (decide (k = n)) as [->|Hn]; [by rewrite lookup_delete_eq|].
  by rewrite lookup_delete_ne.
Qed.

(** a finished move leaves the second level alone outside the folder it
    moves into and the node it moves *)
Lemma rename_into_entry_at_frame sub n d d' k x :
  rename_into sub n d = Done d' → k ≠ sub → k ≠ n →
  entry_at d' k x = entry_at d k x.
Proof.
  intros (kids & src & _ & _ & _ & ->)%rename_into_Done Hs Hn.
  unfold entry_at. rewrite lookup_insert_ne by done.
  by rewrite lookup_delete_ne.
Qed.

(** ** [create_folders], in full *)

Lemma mkdir_loop_result ks d d' :
  for_each mkdir_exist_ok ks d = Done d' →
  ∀ k, d' !! k = match d !! k with
                 | Some v => Some v
                 | None => if bool_decide (k ∈ ks) then Some (Dir ∅) else None
                 end.
Proof.
  revert d. induction ks as [|y ks IH]; intros d H k.
  - injection H as <-. by destruct (d !! k).
  - simpl in H. destruct (mkdir_exist_ok y d) as [d1|] eqn:Hy; [|done].
    rewrite (IH d1 H k).
    destruct (mkdir_exist_ok_cases y d) as [[_ E] | [[Hdir E] | [Hnone E]]];
      rewrite E in Hy; [done | injection Hy as <- | injection Hy as <-].
    + destruct (d !! k) eqn:Hk; [done|].
      assert (y ≠ k) as Hne.
      { intros ->. unfold is_dir in Hdir. by rewrite Hk in Hdir. }
      apply (f_equal (λ b : bool, if b then Some (Dir ∅) else None)).
      apply bool_decide_ext. rewrite elem_of_cons.
      split; [by right | intros [->|?]; done].
    + destruct (decide (y = k)) as [->|Hne].
      * rewrite lookup_insert_eq, Hnone.
        rewrite (bool_decide_eq_true_2 (k ∈ k :: ks)); [done | by left].
      * rewrite lookup_insert_ne by done. destruct (d !! k); [done|].
        apply (f_equal (λ b : bool, if b then Some (Dir ∅) else None)).
        apply bool_decide_ext. rewrite elem_of_cons.
      split; [by right | intros [->|?]; done].
Qed.

Lemma mkdir_loop_Raised ks d e d' :
  for_each mkdir_exist_ok ks d = Raised e d' →
  e = FileExistsError ∧ ∃ k, k ∈ ks ∧ is_file d k = true.
Proof.
  revert d. induction ks as [|y ks IH]; intros d H; [done|].
  simpl in H.
  destruct (mkdir_exist_ok_cases y d) as [[Hf E] | [[Hdir E] | [Hnone E]]];
    rewrite E in H.
  - injection H as <- _. split; [done|]. exists y. split; [by left | done].
  - destruct (IH _ H) as (-> & k & Hk & Hf). split; [done|].
    exists k. split; [by right | done].
  - destruct (IH _ H) as (-> & k & Hk & Hf). split; [done|].
    exists k. split; [by right|]. unfold is_file in *.
    destruct (decide (y = k)) as [->|Hne].
    + by rewrite lookup_insert_eq in Hf.
    + by rewrite lookup_insert_ne in Hf.
Qed.

Lemma mkdir_loop_raises ks d k :
  k ∈ ks → is_file d k = true →
  ∃ d', for_each mkdir_exist_ok ks d = Raised FileExistsError d'.
Proof.
  revert d. induction ks as [|y ks IH]; intros d Hk Hf;
    [by apply elem_of_nil in Hk|].
  simpl.
  destruct (mkdir_exist_ok_cases y d) as [[_ ->] | [[Hdir ->] | [Hnone ->]]];
    [eauto | |].
  - apply elem_of_cons in Hk as [->|Hk]; [|by apply IH].
    unfold is_file, is_dir in *. by destruct (d !! y) as [[]|].
  - apply elem_of_cons in Hk as [->|Hk].
    + unfold is_file in Hf. by rewrite Hnone in Hf.
    + apply IH; [done|]. unfold is_file in *.
      rewrite lookup_insert_ne; [done|]. intros ->. by rewrite Hnone in Hf.
Qed.

(** X1. When [create_folders] returns, the directory is the one it found
    plus an empty folder for every category name that was missing: every
    entry that was there is unchanged, and no other name is created. *)
Theorem create_folders_result d d' :
  create_folders d = Done d' →
  ∀ k, d' !! k = match d !! k with
                 | Some v => Some v
                 | None => if bool_decide (k ∈ keys m) then Some (Dir ∅)
                           else None
                 end.
Proof. apply mkdir_loop_result. Qed.


(** ** [organize_files], further *)





Lemma organize_files_keeps_loose_dir d k :
  is_dir d k = true → k ∉ keys m →
  state_of (organize_files d) !! k = d !! k.
Proof.
  intros Hdir Hkey.
  apply (for_each_state_inv organize_files_step (λ d0, d0 !! k = d !! k));
    [|done].
  intros y d0 _ Hd0. unfold organize_files_step.
  destruct (is_file d0 y && Str.nonempty (suffix y)) eqn:Hg; [|done].
  apply andb_true_iff in Hg as [Hf _].
  assert (y ≠ k) as Hy.
  { apply (is_file_not_dir d0); [done|]. unfold is_dir. by rewrite Hd0. }
  apply (for_each_state_inv (classify y) (λ d1, d1 !! k = d !! k)); [|done].
  intros cat d1 Hcat Hd1. apply classify_state; [done|].
  rewrite rename_into_top_frame; [done | | done]. by intros ->.
Qed.


(** X4. [organize_files] touches at the top level only regular files and
    the folders of the categories: a directory whose name is not a
    category name is left exactly as it is, a name that is absent stays
    absent, and a directory stays a directory, whether the call returns
    or raises. *)
Theorem organize_files_leaves_folders d k :
  (is_dir d k = true → k ∉ keys m →
   state_of (organize_files d) !! k = d !! k) ∧
  (d !! k = None → state_of (organize_files d) !! k = None) ∧
  (is_dir d k = true → is_dir (state_of (organize_files d)) k = true).
Proof.
  split_and!.
  - apply organize_files_keeps_loose_dir.
  - apply organize_files_keeps_none.
  - apply organize_files_keeps_dir.
Qed.


(** ** What the folders held *)

(** a finished move of something that is not a directory changes the
    second level under its own name only *)
Lemma rename_into_entry_other sub n d d' x :
  rename_into sub n d = Done d' → n ≠ x → is_dir d n = false →
  ∀ s, entry_at d' s x = entry_at d s x.
Proof.
  intros (kids & src & Hs & Hsrc & Hne & ->)%rename_into_Done Hnx Hn s.
  unfold entry_at. destruct (decide (s = sub)) as [->|Hss].
  - rewrite lookup_insert_eq, Hs. by rewrite lookup_insert_ne.
  - rewrite lookup_insert_ne by done.
    destruct (decide (s = n)) as [->|].
    + rewrite lookup_delete_eq, Hsrc. unfold is_dir in Hn.
      rewrite Hsrc in Hn. by destruct src.
    + by rewrite lookup_delete_ne.
Qed.

Lemma is_file_stays_false sub n d x :
  is_file d x = false → is_file (state_of (rename_into sub n d)) x = false.
Proof.
  intros Hx. unfold is_file in *.
  destruct (state_of (rename_into sub n d) !! x) as [[c|]|] eqn:E; try done.
  by rewrite (rename_into_file_was_file _ _ _ _ _ E) in Hx.
Qed.

Lemma organize_files_keeps_held d s x :
  is_file d x = false →
  entry_at (state_of (organize_files d)) s x = entry_at d s x.
Proof.
  intros Hx.
  pose (P := λ d0 : directory,
          is_file d0 x = false ∧ ∀ s, entry_at d0 s x = entry_at d s x).
  assert (P (state_of (organize_files d))) as [_ ?]; [|done].
  apply (for_each_state_inv organize_files_step P); [|done].
  intros y d0 _ [Hx0 He0]. unfold organize_files_step.
  destruct (is_file d0 y && Str.nonempty (suffix y)) eqn:Hg; [|done].
  apply andb_true_iff in Hg as [Hf _].
  assert (y ≠ x) as Hyx by (intros ->; congruence).
  pose (Q := λ d1 : directory, is_dir d1 y = false ∧ P d1).
  assert (Q (state_of (for_each (classify y) (keys m) d0))) as [_ ?]; [|done].
  apply (for_each_state_inv (classify y) Q).
  - intros cat d1 _ (Hy1 & Hx1 & He1). apply classify_state; [done|].
    destruct (rename_into cat y d1) as [d2|e d2] eqn:Hmove; simpl.
    + pose proof (is_file_stays_false cat y d1 x Hx1) as Hx2.
      rewrite Hmove in Hx2. simpl in Hx2.
      pose proof (rename_into_entry_other _ _ _ _ x Hmove Hyx Hy1) as He2.
      apply rename_into_Done in Hmove as (kids & src & _ & _ & Hcy & ->).
      unfold Q, P. split_and!; [|done|intros s'; by rewrite He2].
      unfold is_dir. by rewrite lookup_insert_ne, lookup_delete_eq.
    + destruct (rename_into_cases on_collision cat y d1)
        as [(e' & E) | (? & ? & _ & _ & _ & E)]; rewrite E in Hmove;
        [|done]. by injection Hmove as _ <-.
  - split; [|done]. unfold is_file, is_dir in *. by destruct (d0 !! y) as [[]|].
Qed.

Lemma organize_remaining_files_keeps_held d s x :
  is_file d x = false ∨ Str.nonempty (suffix x) = false →
  entry_at (state_of (organize_remaining_files d)) s x = entry_at d s x.
Proof.
  intros Hx.
  apply (for_each_state_inv organize_remaining_files_step
           (λ d0, (is_file d0 x = false ∨ Str.nonempty (suffix x) = false) ∧
                  entry_at d0 s x = entry_at d s x)); [|done].
  intros y d0 _ [Hx0 He0]. unfold organize_remaining_files_step.
  destruct (is_file d0 y && Str.nonempty (suffix y)) eqn:Hg; [|done].
  apply andb_true_iff in Hg as [Hf Hs].
  assert (y ≠ x) as Hyx by (intros ->; destruct Hx0; congruence).
  assert (is_dir d0 y = false) as Hy.
  { unfold is_file, is_dir in *. by destruct (d0 !! y) as [[]|]. }
  split.
  - destruct Hx0 as [Hx0|?]; [left | by right].
    by apply is_file_stays_false.
  - destruct (rename_into "Other" y d0) as [d1|e d1] eqn:Hmove; simpl.
    + by rewrite (rename_into_entry_other _ _ _ _ x Hmove Hyx Hy).
    + destruct (rename_into_cases on_collision "Other" y d0)
        as [(e' & E) | (? & ? & _ & _ & _ & E)]; rewrite E in Hmove;
        [|done]. by injection Hmove as _ <-.
Qed.

(** X25. The two file loops leave what the folders hold alone, except
    under the names of the files they move: after [organize_files],
    every folder holds under a name that no regular file of the top level
    bears what it held before, and likewise after
    [organize_remaining_files] under a name that no regular file with a
    suffix bears, whether the call returns or raises. *)
Theorem file_loops_keep_what_folders_held d s x :
  (is_file d x = false →
   entry_at (state_of (organize_files d)) s x = entry_at d s x) ∧
  (is_file d x = false ∨ Str.nonempty (suffix x) = false →
   entry_at (state_of (organize_remaining_files d)) s x = entry_at d s x).
Proof.
  split.
  - apply organize_files_keeps_held.
  - apply organize_remaining_files_keeps_held.
Qed.

(** ** [organize_remaining_files], further *)

Lemma organize_remaining_files_file_was_file d k c :
  state_of (organize_remaining_files d) !! k = Some (File c) →
  d !! k = Some (File c).
Proof.
  apply (for_each_state_inv organize_remaining_files_step
           (λ d0, d0 !! k = Some (File c) → d !! k = Some (File c)));
    [|done].
  intros y d0 _ Hd0 H. apply Hd0. revert H.
  unfold organize_remaining_files_step.
  destruct (is_file d0 y && Str.nonempty (suffix y)); [|done].
  apply rename_into_file_was_file.
Qed.

Lemma organize_remaining_files_keeps_other_dir d k :
  is_dir d k = true → k ≠ "Other" →
  state_of (organize_remaining_files d) !! k = d !! k.
Proof.
  intros Hdir Hk.
  apply (for_each_state_inv organize_remaining_files_step
           (λ d0, d0 !! k = d !! k)); [|done].
  intros y d0 _ Hd0. unfold organize_remaining_files_step.
  destruct (is_file d0 y && Str.nonempty (suffix y)) eqn:Hg; [|done].
  apply andb_true_iff in Hg as [Hf _].
  rewrite rename_into_top_frame; [done..|].
  apply not_eq_sym, (is_file_not_dir d0); [done|].
  unfold is_dir. by rewrite Hd0.
Qed.

Lemma organize_remaining_files_none_left d d' n :
  organize_remaining_files d = Done d' →
  is_file d' n = true → Str.nonempty (suffix n) = false.
Proof.
  intros Hrun Hf. destruct (Str.nonempty (suffix n)) eqn:Hs; [exfalso|done].
  unfold is_file in Hf. destruct (d' !! n) as [[c|]|] eqn:Hn; try done.
  pose proof (organize_remaining_files_file_was_file d n c) as Hwas.
  rewrite Hrun in Hwas. specialize (Hwas Hn).
  destruct (organize_remaining_files_moves d d' n c Hwas Hs Hrun) as [E _].
  by rewrite E in Hn.
Qed.

(** X8. When [organize_remaining_files] returns, every regular file with
    a suffix that was at the top level is at [Other/<name>] with its
    content and no longer at the top, and no regular file with a suffix
    is left at the top level. *)
Theorem organize_remaining_files_sweeps d d' :
  organize_remaining_files d = Done d' →
  (∀ n c, d !! n = Some (File c) → Str.nonempty (suffix n) = true →
          d' !! n = None ∧ entry_at d' "Other" n = Some (File c)) ∧
  (∀ n, is_file d' n = true → Str.nonempty (suffix n) = false).
Proof.
  intros Hrun. split.
  - intros n c Hn Hs. by apply (organize_remaining_files_moves d).
  - intros n. by apply (organize_remaining_files_none_left d).
Qed.

(** X9. [organize_remaining_files] changes nothing else at the top level:
    every directory other than [Other] is left exactly as it is, a
    regular file without suffix keeps its place and content, a name that
    is absent stays absent, and [Other] stays a directory, whether the
    call returns or raises. *)
Theorem organize_remaining_files_leaves_rest d k :
  (is_dir d k = true → k ≠ "Other" →
   state_of (organize_remaining_files d) !! k = d !! k) ∧
  (∀ c, d !! k = Some (File c) → Str.nonempty (suffix k) = false →
        state_of (organize_remaining_files d) !! k = Some (File c)) ∧
  (d !! k = None → state_of (organize_remaining_files d) !! k = None) ∧
  (is_dir d k = true →
   is_dir (state_of (organize_remaining_files d)) k = true).
Proof.
  split_and!.
  - apply organize_remaining_files_keeps_other_dir.
  - intros c. apply organize_remaining_files_keeps_file.
  - apply organize_remaining_files_keeps_none.
  - apply organize_remaining_files_keeps_dir.
Qed.

(** ** Steps with nothing to do, and sweeps without their folder *)


Lemma rename_into_not_a_directory sub n d :
  is_file d sub = true →
  rename_into sub n d = Raised NotADirectoryError d.
Proof. unfold rename_into, is_file. by destruct (d !! sub) as [[]|]. Qed.

(** X23. A sweep that has something to move and whose folder is not a
    directory raises and changes nothing: [FileNotFoundError] when the
    folder is absent, [NotADirectoryError] when a regular file has its
    name.  This holds for [Other] in [organize_remaining_files] and for
    [FOLDERS] in [organize_remaining_folders]. *)
Theorem sweeps_without_their_folder d :
  (∀ n c, d !! n = Some (File c) → Str.nonempty (suffix n) = true →
     (d !! "Other" = None →
      organize_remaining_files d = Raised FileNotFoundError d) ∧
     (is_file d "Other" = true →
      organize_remaining_files d = Raised NotADirectoryError d)) ∧
  (∀ n kids, d !! n = Some (Dir kids) → n ∉ keys m → n ≠ "FOLDERS" →
     (d !! "FOLDERS" = None →
      organize_remaining_folders d = Raised FileNotFoundError d) ∧
     (is_file d "FOLDERS" = true →
      organize_remaining_folders d = Raised NotADirectoryError d)).
Proof.
  split.
  - intros n c Hn Hs. split.
    + intros Ho. by apply (organize_remaining_files_without_Other d n c).
    + intros Ho. apply for_each_stuck.
      * intros y _. unfold organize_remaining_files_step.
        destruct (is_file d y && Str.nonempty (suffix y)); [right | by left].
        by apply rename_into_not_a_directory.
      * exists n. split; [by eapply listdir_complete|].
        unfold organize_remaining_files_step, is_file at 1. rewrite Hn, Hs.
        simpl. by apply rename_into_not_a_directory.
  - intros n kids Hn Hkey Hne. split.
    + intros Hf.
      by apply (organize_remaining_folders_without_FOLDERS d n kids).
    + intros Hf. apply for_each_stuck.
      * intros y _. unfold organize_remaining_folders_step.
        destruct ((is_dir d y && _) && _); [right | by left].
        by apply rename_into_not_a_directory.
      * exists n. split; [by eapply listdir_complete|].
        unfold organize_remaining_folders_step.
        replace ((is_dir d n && _) && _) with true.
        { by apply rename_into_not_a_directory. }
        symmetry. apply folders_guard. split_and!; [|done..].
        unfold is_dir. by rewrite Hn.
Qed.

(** ** [organize_remaining_folders], further *)

Lemma organize_remaining_folders_moves d d' name held :
  name ∉ keys m → name ≠ "FOLDERS" → d !! name = Some (Dir held) →
  organize_remaining_folders d = Done d' →
  d' !! name = None ∧ entry_at d' "FOLDERS" name = Some (Dir held).
Proof.
  intros Hkey Hne Hname Hrun.
  apply (for_each_phases organize_remaining_folders_step
           (λ d0, d0 !! name = Some (Dir held))
           (λ d0, d0 !! name = None ∧
                  entry_at d0 "FOLDERS" name = Some (Dir held))
           name (listdir d) d d');
    [by eapply listdir_complete | done | | | | done].
  - intros y d0 d1 _ Hy Hd0. unfold organize_remaining_folders_step.
    destruct ((is_dir d0 y && _) && _); [|by intros [= <-]].
    intros (kids & src & _ & _ & _ & ->)%rename_into_Done.
    rewrite lookup_insert_ne by done. by rewrite lookup_delete_ne.
  - intros d0 d1 Hd0. unfold organize_remaining_folders_step.
    replace ((is_dir d0 name && _) && _) with true.
    2:{ symmetry. apply folders_guard. split_and!; [|done..].
        unfold is_dir. by rewrite Hd0. }
    intros (kids & src & Hf & Hsrc & _ & ->)%rename_into_Done.
    split.
    + rewrite lookup_insert_ne by done. apply lookup_delete_eq.
    + unfold entry_at. rewrite lookup_insert_eq, lookup_insert_eq. congruence.
  - intros y d0 d1 _ [Hd0 He0]. unfold organize_remaining_folders_step.
    destruct ((is_dir d0 y && _) && _) eqn:Hg; [|by intros [= <-]].
    apply folders_guard in Hg as (Hy & _ & _).
    assert (y ≠ name) as Hyn.
    { intros ->. unfold is_dir in Hy. by rewrite Hd0 in Hy. }
    intros (kids & src & Hf & Hsrc & _ & ->)%rename_into_Done.
    split.
    + rewrite lookup_insert_ne by done. by rewrite lookup_delete_ne.
    + unfold entry_at in *. rewrite lookup_insert_eq, lookup_insert_ne by done.
      by rewrite Hf in He0.
Qed.

(** [organize_remaining_folders] makes no directory at the top level *)
Lemma organize_remaining_folders_dir_was_dir d k :
  k ≠ "FOLDERS" →
  is_dir (state_of (organize_remaining_folders d)) k = true →
  state_of (organize_remaining_folders d) !! k = d !! k.
Proof.
  intros Hk.
  apply (for_each_state_inv organize_remaining_folders_step
           (λ d0, is_dir d0 k = true → d0 !! k = d !! k)); [|done].
  intros y d0 _ Hd0. unfold organize_remaining_folders_step.
  destruct ((is_dir d0 y && _) && _); [|done].
  intros Hdir.
  pose proof (rename_into_dir_was_dir "FOLDERS" y d0 k Hk Hdir)
    as E.
  rewrite E. apply Hd0. unfold is_dir in *. by rewrite <- E.
Qed.

Lemma organize_remaining_folders_keeps_entry d k :
  k ≠ "FOLDERS" → (is_dir d k = true → k ∈ keys m) →
  state_of (organize_remaining_folders d) !! k = d !! k.
Proof.
  intros Hk Hcat.
  apply (for_each_state_inv organize_remaining_folders_step
           (λ d0, d0 !! k = d !! k)); [|done].
  intros y d0 _ Hd0. unfold organize_remaining_folders_step.
  destruct ((is_dir d0 y && _) && _) eqn:Hg; [|done].
  apply folders_guard in Hg as (Hy & Hkey & _).
  rewrite rename_into_top_frame; [done..|].
  intros ->. apply Hkey, Hcat. unfold is_dir in *. by rewrite <- Hd0.
Qed.

Lemma organize_remaining_folders_keeps_FOLDERS d :
  is_dir d "FOLDERS" = true →
  is_dir (state_of (organize_remaining_folders d)) "FOLDERS" = true.
Proof.
  apply (for_each_state_inv organize_remaining_folders_step
           (λ d0, is_dir d0 "FOLDERS" = true)).
  intros y d0 _ Hd0. unfold organize_remaining_folders_step.
  destruct ((is_dir d0 y && _) && _) eqn:Hg; [|done].
  apply folders_guard in Hg as (_ & _ & Hne).
  by apply rename_into_keeps_dir.
Qed.

Lemma organize_remaining_folders_keeps_swept d x :
  is_dir d x = false →
  entry_at (state_of (organize_remaining_folders d)) "FOLDERS" x
  = entry_at d "FOLDERS" x.
Proof.
  intros Hx.
  pose (P := λ d0 : directory,
          is_dir d0 x = false ∧
          entry_at d0 "FOLDERS" x = entry_at d "FOLDERS" x).
  assert (P (state_of (organize_remaining_folders d))) as [_ ?]; [|done].
  apply (for_each_state_inv organize_remaining_folders_step P); [|done].
  intros y d0 _ [Hx0 He0]. unfold organize_remaining_folders_step.
  destruct ((is_dir d0 y && _) && _) eqn:Hg; [|done].
  apply folders_guard in Hg as (Hy & _ & Hne).
  assert (y ≠ x) as Hyx by (intros ->; congruence).
  destruct (rename_into_cases on_collision "FOLDERS" y d0)
    as [(e & ->) | (kids & src & Hf & Hsrc & _ & ->)]; simpl; [done|].
  assert (x ≠ "FOLDERS") as HxF.
  { intros ->. unfold is_dir in Hx0. by rewrite Hf in Hx0. }
  split.
  - unfold is_dir in *. rewrite lookup_insert_ne by done.
    by rewrite lookup_delete_ne.
  - rewrite <- He0. unfold entry_at.
    rewrite lookup_insert_eq, Hf. by rewrite lookup_insert_ne.
Qed.

Lemma organize_remaining_folders_none_left d d' n :
  organize_remaining_folders d = Done d' →
  is_dir d' n = true → n ∈ keys m ∨ n = "FOLDERS".
Proof.
  intros Hrun Hdir.
  destruct (decide (n ∈ keys m)) as [|Hkey]; [by left|].
  destruct (decide (n = "FOLDERS")) as [|Hne]; [by right|]. exfalso.
  pose proof (organize_remaining_folders_dir_was_dir d n Hne) as E.
  rewrite Hrun in E. specialize (E Hdir). simpl in E.
  unfold is_dir in Hdir. destruct (d' !! n) as [[|held]|] eqn:Hn; try done.
  destruct (organize_remaining_folders_moves d d' n held Hkey Hne
              (eq_sym E) Hrun) as [E' _].
  by rewrite E' in Hn.
Qed.

(** X11. When [organize_remaining_folders] returns, every directory that
    was at the top level and is neither a category folder nor [FOLDERS]
    is at [FOLDERS/<name>] with all it held and no longer at the top, and
    the only directories left at the top level are category folders and
    [FOLDERS]. *)
Theorem organize_remaining_folders_sweeps d d' :
  organize_remaining_folders d = Done d' →
  (∀ n held, d !! n = Some (Dir held) → n ∉ keys m → n ≠ "FOLDERS" →
             d' !! n = None ∧ entry_at d' "FOLDERS" n = Some (Dir held)) ∧
  (∀ n, is_dir d' n = true → n ∈ keys m ∨ n = "FOLDERS").
Proof.
  intros Hrun. split.
  - intros n held Hn Hkey Hne. by apply (organize_remaining_folders_moves d).
  - intros n. by apply (organize_remaining_folders_none_left d).
Qed.

(** X12. [organize_remaining_folders] changes nothing else: every entry
    of the top level that is not a loose directory (a regular file, a
    category folder) is left exactly as it is, [FOLDERS] stays a
    directory, and what [FOLDERS] held stays in it under every name that
    no directory of the top level bears, whether the call returns or
    raises. *)
Theorem organize_remaining_folders_leaves_rest d k :
  (k ≠ "FOLDERS" → (is_dir d k = true → k ∈ keys m) →
   state_of (organize_remaining_folders d) !! k = d !! k) ∧
  (is_dir d "FOLDERS" = true →
   is_dir (state_of (organize_remaining_folders d)) "FOLDERS" = true) ∧
  (is_dir d k = false →
   entry_at (state_of (organize_remaining_folders d)) "FOLDERS" k
   = entry_at d "FOLDERS" k).
Proof.
  split_and!.
  - apply organize_remaining_folders_keeps_entry.
  - apply organize_remaining_folders_keeps_FOLDERS.
  - apply organize_remaining_folders_keeps_swept.
Qed.

(** ** The whole routine, further *)

Lemma organize_Done_steps d d' :
  organize d = Done d' →
  ∃ d1 d2 d3,
    create_folders d = Done d1 ∧ organize_files d1 = Done d2 ∧
    organize_remaining_files d2 = Done d3 ∧
    organize_remaining_folders d3 = Done d'.
Proof.
  unfold organize. intros Hrun.
  apply and_then_Done in Hrun as (d1 & H1 & Hrun).
  apply and_then_Done in Hrun as (d2 & H2 & Hrun).
  apply and_then_Done in Hrun as (d3 & H3 & H4). eauto 10.
Qed.

Lemma organize_remaining_folders_keeps_none d k :
  d !! k = None → state_of (organize_remaining_folders d) !! k = None.
Proof.
  apply (for_each_state_inv organize_remaining_folders_step
           (λ d0, d0 !! k = None)).
  intros y d0 _. apply organize_remaining_folders_step_keeps_none.
Qed.

Lemma organize_remaining_folders_file_was_file d k c :
  state_of (organize_remaining_folders d) !! k = Some (File c) →
  d !! k = Some (File c).
Proof.
  apply (for_each_state_inv organize_remaining_folders_step
           (λ d0, d0 !! k = Some (File c) → d !! k = Some (File c)));
    [|done].
  intros y d0 _ Hd0 H. apply Hd0. revert H.
  unfold organize_remaining_folders_step.
  destruct ((is_dir d0 y && _) && _); [|done].
  apply rename_into_file_was_file.
Qed.

(** what the top level looks like after a run that returned *)
Lemma organize_Done_tidy d d' :
  organize d = Done d' →
  (∀ k, k ∈ keys m → is_dir d' k = true) ∧
  (∀ n, is_dir d' n = true → n ∈ keys m ∨ n = "FOLDERS") ∧
  (∀ n, is_file d' n = true → Str.nonempty (suffix n) = false).
Proof.
  intros (d1 & d2 & d3 & H1 & H2 & H3 & H4)%organize_Done_steps.
  split_and!.
  - intros k Hk.
    pose proof (mkdir_loop_makes_dirs _ _ _ H1 k Hk) as Hd1.
    pose proof (organize_files_keeps_dir d1 k Hd1) as Hd2.
    rewrite H2 in Hd2. simpl in Hd2.
    pose proof (organize_remaining_files_keeps_dir d2 k Hd2) as Hd3.
    rewrite H3 in Hd3. simpl in Hd3.
    destruct (decide (k = "FOLDERS")) as [->|Hne].
    + pose proof (organize_remaining_folders_keeps_FOLDERS d3 Hd3) as Hd4.
      by rewrite H4 in Hd4.
    + pose proof (organize_remaining_folders_keeps_entry d3 k Hne (λ _, Hk))
        as E.
      rewrite H4 in E. simpl in E. unfold is_dir in *. by rewrite E.
  - intros n. by apply (organize_remaining_folders_none_left d3).
  - intros n Hf. unfold is_file in Hf.
    destruct (d' !! n) as [[c|]|] eqn:Hn; try done.
    pose proof (organize_remaining_folders_file_was_file d3 n c) as Hwas.
    rewrite H4 in Hwas. specialize (Hwas Hn).
    apply (organize_remaining_files_none_left d2 d3); [done|].
    unfold is_file. by rewrite Hwas.
Qed.

(** X14. After a run of [organize] that returned, the top level of the
    target directory holds the category folders, possibly [FOLDERS], and
    regular files without suffix, and nothing else. *)
Theorem organize_leaves_a_tidy_directory d d' :
  organize d = Done d' →
  (∀ k, k ∈ keys m → is_dir d' k = true) ∧
  (∀ n v, d' !! n = Some v →
     (is_dir d' n = true ∧ (n ∈ keys m ∨ n = "FOLDERS")) ∨
     (is_file d' n = true ∧ suffix n = "")).
Proof.
  intros (Hcat & Hdirs & Hfiles)%organize_Done_tidy. split; [done|].
  intros n v Hn. destruct v as [c|kids].
  - right. assert (is_file d' n = true) as Hf by (unfold is_file; by rewrite Hn).
    split; [done|]. specialize (Hfiles n Hf). by destruct (suffix n).
  - left. assert (is_dir d' n = true) as Hd by (unfold is_dir; by rewrite Hn).
    auto.
Qed.

(** X13. [organize] is idempotent: on the directory a run that returned
    has left, a second run returns and changes nothing. *)
Theorem organize_idempotent d d' :
  organize d = Done d' → organize d' = Done d'.
Proof.
  intros (Hcat & Hdirs & Hfiles)%organize_Done_tidy.
  assert (create_folders d' = Done d') as E1 by (by apply mkdir_loop_again).
  assert (organize_files d' = Done d') as E2.
  { apply for_each_skip. intros y _. unfold organize_files_step.
    destruct (is_file d' y) eqn:Hf; [|done]. by rewrite (Hfiles y Hf). }
  assert (organize_remaining_files d' = Done d') as E3.
  { apply for_each_skip. intros y _. unfold organize_remaining_files_step.
    destruct (is_file d' y) eqn:Hf; [|done]. by rewrite (Hfiles y Hf). }
  assert (organize_remaining_folders d' = Done d') as E4.
  { apply for_each_skip. intros y _. unfold organize_remaining_folders_step.
    destruct ((is_dir d' y && _) && _) eqn:Hg; [|done].
    apply folders_guard in Hg as (Hdir & Hkey & Hne).
    by destruct (Hdirs y Hdir). }
  unfold organize, and_then. by rewrite E1, E2, E3, E4.
Qed.

(** X15. [organize] creates nothing at the top level but category
    folders: a name that is absent and is not a category name is still
    absent afterwards, whether the run returns or raises; in particular
    neither [Other] nor [FOLDERS] is ever created. *)
Theorem organize_creates_only_category_folders d k :
  d !! k = None → k ∉ keys m → state_of (organize d) !! k = None.
Proof.
  intros Hk Hkey. unfold organize. revert d Hk.
  set (P := λ d : directory, d !! k = None).
  change (∀ d, P d → P (state_of
    ((create_folders >> organize_files >> organize_remaining_files >>
      organize_remaining_folders) d))).
  intros d Hd.
  apply (and_then_state_inv P);
    [intros d0; by apply create_folders_keeps_none | | done].
  clear d Hd. intros d Hd.
  apply (and_then_state_inv P);
    [intros d0; apply organize_files_keeps_none | | done].
  clear d Hd. intros d Hd.
  apply (and_then_state_inv P);
    [intros d0; apply organize_remaining_files_keeps_none | | done].
  intros d0. apply organize_remaining_folders_keeps_none.
Qed.

(** a returning [organize_files] has put a regular file whose suffix one
    category lists, and no other, into the folder of that category *)
Lemma organize_files_places d d' cat name c :
  NoDup (keys m) → cat ∈ keys m →
  listed m cat (Str.lower (suffix name)) = true →
  (∀ k, k ∈ keys m → k ≠ cat →
        listed m k (Str.lower (suffix name)) = false) →
  d !! name = Some (File c) → Str.nonempty (suffix name) = true →
  organize_files d = Done d' →
  d' !! name = None ∧ entry_at d' cat name = Some (File c).
Proof.
  intros Hnd Hcat Hl Hothers Hname Hs Hrun.
  apply (for_each_phases organize_files_step
           (λ d0, d0 !! name = Some (File c))
           (λ d0, d0 !! name = None ∧ entry_at d0 cat name = Some (File c))
           name (listdir d) d d');
    [by eapply listdir_complete | done | | | | done].
  - intros y d0 d1 _ Hy Hd0 Hstep.
    pose proof (organize_files_step_keeps_other_file y d0 name c Hy Hd0) as H.
    by rewrite Hstep in H.
  - intros d0 d1 Hd0. unfold organize_files_step.
    assert (is_file d0 name = true) as Hf by (unfold is_file; by rewrite Hd0).
    rewrite Hf, Hs. simpl.
    rewrite (inner_single name cat) by done. intros Hmove.
    pose proof (rename_into_entry_at _ _ _ _ _ cat name Hmove Hf) as He.
    rewrite decide_True in He by done.
    apply rename_into_Done in Hmove as (kids & src & _ & _ & Hcn & ->).
    split; [|congruence].
    rewrite lookup_insert_ne by done. apply lookup_delete_eq.
  - intros y d0 d1 _ [Hd0 He0] Hstep.
    destruct (decide (y = name)) as [->|Hy].
    + unfold organize_files_step, is_file in Hstep. rewrite Hd0 in Hstep.
      simpl in Hstep. by injection Hstep as <-.
    + destruct (organize_files_step_frame y d0 d1 name Hy) as [Hd1 He1];
        [unfold is_dir; by rewrite Hd0 | done |].
      split; [congruence | by rewrite He1].
Qed.

(** a returning sweep of the files changes no folder but [Other] *)
Lemma organize_remaining_files_entry_frame d d' k x :
  k ≠ "Other" → organize_remaining_files d = Done d' →
  entry_at d' k x = entry_at d k x.
Proof.
  intros Hk.
  apply (for_each_Done_inv organize_remaining_files_step
           (λ d0, entry_at d0 k x = entry_at d k x)); [|done].
  intros y d0 d1 _ Hd0. unfold organize_remaining_files_step.
  destruct (is_file d0 y && Str.nonempty (suffix y)) eqn:Hg;
    [|by intros [= <-]].
  apply andb_true_iff in Hg as [Hf _]. intros Hmove.
  rewrite (rename_into_entry_at _ _ _ _ _ k x Hmove Hf).
  by rewrite decide_False by (by intros [? _]).
Qed.


(** X17. Under the default mapping, a regular file whose suffix is, in
    any mix of cases, a dotted extension of category [cat] is, after a
    run of [organize] that returned, at [cat/<name>] with its content
    and no longer at the top level. *)
Theorem organize_places_listed_file d d' cat exts ext t name c :
  org_directories self = ORG_DIRECTORIES →
  getitem ORG_DIRECTORIES cat = Some exts → ext ∈ exts →
  ext = String "." t → Str.lower (suffix name) = ext →
  d !! name = Some (File c) →
  organize d = Done d' →
  d' !! name = None ∧ entry_at d' cat name = Some (File c).
Proof.
  intros Hm Hcat Hext Hdot Hsuf Hname Hrun.
  destruct (organize_Done_steps d d' Hrun)
    as (d1 & d2 & d3 & H1 & H2 & H3 & H4).
  assert (Str.nonempty (suffix name) = true) as Hs.
  { destruct (suffix name); [|done]. simpl in Hsuf. congruence. }
  assert (cat ∈ keys m) as Hkey by (rewrite Hm; by eapply getitem_Some_keys).
  pose proof (create_folders_keeps d name _ Hname) as Hn1.
  rewrite H1 in Hn1. simpl in Hn1.
  destruct (organize_files_places d1 d2 cat name c) as [Hn2 He2]; try done.
  { rewrite Hm. apply default_keys_NoDup. }
  { unfold listed. rewrite Hm, Hcat, Hsuf. by apply bool_decide_eq_true. }
  { intros k _ Hk. rewrite Hm, Hsuf.
    by eapply exclusive_spec; [apply default_exclusive | ..]. }
  assert (cat ≠ "Other") as HcO.
  { intros ->. rewrite Hm in Hkey. by apply Other_not_default_key. }
  assert (cat ≠ "FOLDERS") as HcF.
  { intros ->. rewrite Hm in Hkey. by apply FOLDERS_not_default_key. }
  pose proof (organize_remaining_files_keeps_none d2 name Hn2) as Hn3.
  rewrite H3 in Hn3. simpl in Hn3.
  pose proof (organize_remaining_files_entry_frame d2 d3 cat name HcO H3) as He3.
  pose proof (organize_remaining_folders_keeps_none d3 name Hn3) as Hn4.
  rewrite H4 in Hn4. simpl in Hn4.
  pose proof (organize_remaining_folders_keeps_entry d3 cat HcF (λ _, Hkey))
    as E4.
  rewrite H4 in E4. simpl in E4.
  split; [done|]. unfold entry_at in *. rewrite E4. congruence.
Qed.

(** X18. A sub-directory of the target directory whose name is neither
    a category name nor [FOLDERS] nor [Other] is, after a run of
    [organize] that returned, at [FOLDERS/<name>] with all it held and
    no longer at the top level. *)
Theorem organize_sweeps_loose_folder d d' n held :
  n ∉ keys m → n ≠ "FOLDERS" → n ≠ "Other" →
  d !! n = Some (Dir held) →
  organize d = Done d' →
  d' !! n = None ∧ entry_at d' "FOLDERS" n = Some (Dir held).
Proof.
  intros Hkey HnF HnO Hn Hrun.
  destruct (organize_Done_steps d d' Hrun)
    as (d1 & d2 & d3 & H1 & H2 & H3 & H4).
  pose proof (create_folders_keeps d n _ Hn) as E1.
  rewrite H1 in E1. simpl in E1.
  assert (is_dir d1 n = true) as Hd1 by (unfold is_dir; by rewrite E1).
  pose proof (organize_files_keeps_loose_dir d1 n Hd1 Hkey) as E2.
  rewrite H2 in E2. simpl in E2.
  assert (is_dir d2 n = true) as Hd2 by (unfold is_dir; by rewrite E2, E1).
  pose proof (organize_remaining_files_keeps_other_dir d2 n Hd2 HnO) as E3.
  rewrite H3 in E3. simpl in E3.
  apply (organize_remaining_folders_moves d3); [done..| congruence | done].
Qed.

(** ** No rollback, and the exceptions of a run *)

(** X21. Nothing is rolled back: under the default mapping, once the
    first two steps have returned, a regular file with a listed dotted
    extension is at [cat/<name>] with its content and no longer at the
    top level in the directory [organize] leaves behind, also when one of
    the two sweeps raises. *)
Theorem classification_survives_the_sweeps d d2 cat exts ext t name c :
  org_directories self = ORG_DIRECTORIES →
  getitem ORG_DIRECTORIES cat = Some exts → ext ∈ exts →
  ext = String "." t → Str.lower (suffix name) = ext →
  d !! name = Some (File c) →
  (create_folders >> organize_files) d = Done d2 →
  state_of (organize d) !! name = None ∧
  entry_at (state_of (organize d)) cat name = Some (File c).
Proof.
  intros Hm Hcat Hext Hdot Hsuf Hname Hrun.
  apply and_then_Done in Hrun as (d1 & H1 & H2).
  assert (Str.nonempty (suffix name) = true) as Hs.
  { destruct (suffix name); [|done]. simpl in Hsuf. congruence. }
  assert (cat ∈ keys m) as Hkey by (rewrite Hm; by eapply getitem_Some_keys).
  pose proof (create_folders_keeps d name _ Hname) as Hn1.
  rewrite H1 in Hn1. simpl in Hn1.
  destruct (organize_files_places d1 d2 cat name c) as [Hn2 He2]; try done.
  { rewrite Hm. apply default_keys_NoDup. }
  { unfold listed. rewrite Hm, Hcat, Hsuf. by apply bool_decide_eq_true. }
  { intros k _ Hk. rewrite Hm, Hsuf.
    by eapply exclusive_spec; [apply default_exclusive | ..]. }
  assert (cat ≠ "FOLDERS") as HcF.
  { intros ->. rewrite Hm in Hkey. by apply FOLDERS_not_default_key. }
  pose proof (organize_remaining_files_keeps_none d2 name Hn2) as Hn3.
  assert (is_file d2 name = false) as Hnf by (unfold is_file; by rewrite Hn2).
  pose proof (organize_remaining_files_keeps_held d2 cat name (or_introl Hnf))
    as He3.
  assert (state_of (organize d)
          = state_of ((organize_remaining_files >> organize_remaining_folders)
                        d2)) as ->.
  { unfold organize, and_then. by rewrite H1, H2. }
  unfold and_then.
  destruct (organize_remaining_files d2) as [d3|e d3]; simpl in *;
    [|split; congruence].
  split; [by apply organize_remaining_folders_keeps_none|].
  unfold entry_at in *.
  rewrite (organize_remaining_folders_keeps_entry d3 cat HcF (λ _, Hkey)).
  congruence.
Qed.

Lemma for_each_Raised_at {A} (body : A → directory → outcome)
    (P : directory → Prop) xs d e d' :
  P d →
  (∀ y d0 d1, y ∈ xs → P d0 → body y d0 = Done d1 → P d1) →
  for_each body xs d = Raised e d' →
  ∃ y d0, y ∈ xs ∧ P d0 ∧ body y d0 = Raised e d'.
Proof.
  revert d. induction xs as [|y xs IH]; intros d Hd HP; simpl; [done|].
  destruct (body y d) as [d1|e1 d1] eqn:Hy.
  - intros H. destruct (IH d1) as (z & d0 & Hz & Hd0 & Hr); [ | |done|].
    + apply (HP y d); [by left | done..].
    + intros z d2 d3 Hz. apply HP. by right.
    + exists z, d0. split; [by right | done].
  - intros [= <- <-]. exists y, d. split; [by left | done].
Qed.

Lemma rename_into_Raised_cases sub n d e d' :
  rename_into sub n d = Raised e d' →
  raised_by_rename on_collision e ∨
  (e = OSError_EINVAL ∧ sub = n ∧ is_dir d n = true).
Proof.
  unfold rename_into, raised_by_rename, is_dir.
  destruct (d !! sub) as [[c|kids]|] eqn:Hs;
    [intros [= <- _]; auto | | intros [= <- _]; auto].
  destruct (d !! n) as [src|] eqn:Hn; [|intros [= <- _]; auto].
  case_decide as Hsn.
  - intros [= <- _]. right. subst. rewrite Hs in Hn. by injection Hn as <-.
  - destruct (kids !! n) as [old|]; [|done].
    destruct (on_collision src old) as [e'|] eqn:Hc; [|done].
    intros [= <- _]. left. eauto.
Qed.

(** X24. The exceptions of a run: [organize] raises [FileExistsError]
    (a category name borne by a regular file), [FileNotFoundError],
    [NotADirectoryError], or what the rename primitive raises for a
    destination that exists, and nothing else.  In particular the lookup
    [self.org_directories[org_dir]] never raises [KeyError], and no
    directory is ever moved into itself. *)
Theorem organize_raises_only d e d' :
  organize d = Raised e d' →
  e = FileExistsError ∨ raised_by_rename on_collision e.
Proof.
  assert (∀ d0, organize_files d0 = Raised e d' →
                raised_by_rename on_collision e) as Hfiles.
  { intros d0 H.
    destruct (for_each_Raised_at organize_files_step (λ _, True)
                (listdir d0) d0 e d') as (y & d1 & _ & _ & Hy); [done..|].
    unfold organize_files_step in Hy.
    destruct (is_file d1 y && Str.nonempty (suffix y)) eqn:Hg; [|done].
    apply andb_true_iff in Hg as [Hf _].
    destruct (for_each_Raised_at (classify y) (λ d2, is_dir d2 y = false)
                (keys m) d1 e d') as (cat & d2 & Hcat & Hd2 & Hc);
      [ | | done | ].
    - unfold is_file, is_dir in *. by destruct (d1 !! y) as [[]|].
    - intros cat d2 d3 _ Hd2 [->|Hmove]%classify_Done; [done|].
      apply rename_into_Done in Hmove as (kids & src & _ & _ & Hcy & ->).
      unfold is_dir. by rewrite lookup_insert_ne, lookup_delete_eq.
    - unfold classify in Hc.
      destruct (getitem_keys m cat Hcat) as [exts He]. rewrite He in Hc.
      case_bool_decide; [|done].
      destruct (rename_into_Raised_cases _ _ _ _ _ Hc)
        as [?|(_ & _ & Hdir)]; [done | congruence]. }
  assert (∀ d0, organize_remaining_files d0 = Raised e d' →
                raised_by_rename on_collision e) as Hrest.
  { intros d0 H.
    destruct (for_each_Raised_at organize_remaining_files_step (λ _, True)
                (listdir d0) d0 e d') as (y & d1 & _ & _ & Hy); [done..|].
    unfold organize_remaining_files_step in Hy.
    destruct (is_file d1 y && Str.nonempty (suffix y)) eqn:Hg; [|done].
    apply andb_true_iff in Hg as [Hf _].
    destruct (rename_into_Raised_cases _ _ _ _ _ Hy)
      as [?|(_ & _ & Hdir)]; [done|].
    unfold is_file, is_dir in *. by destruct (d1 !! y) as [[]|]. }
  assert (∀ d0, organize_remaining_folders d0 = Raised e d' →
                raised_by_rename on_collision e) as Hfolders.
  { intros d0 H.
    destruct (for_each_Raised_at organize_remaining_folders_step (λ _, True)
                (listdir d0) d0 e d') as (y & d1 & _ & _ & Hy); [done..|].
    unfold organize_remaining_folders_step in Hy.
    destruct ((is_dir d1 y && _) && _) eqn:Hg; [|done].
    apply folders_guard in Hg as (_ & _ & Hne).
    destruct (rename_into_Raised_cases _ _ _ _ _ Hy)
      as [?|(_ & Heq & _)]; [done | congruence]. }
  unfold organize, and_then.
  destruct (create_folders d) as [d1|e1 d1] eqn:H1.
  - destruct (organize_files d1) as [d2|e2 d2] eqn:H2.
    + destruct (organize_remaining_files d2) as [d3|e3 d3] eqn:H3.
      * intros H. right. by apply (Hfolders d3).
      * intros [= -> ->]. right. by apply (Hrest d2).
    + intros [= -> ->]. right. by apply (Hfiles d1).
  - intros [= -> ->]. left. by destruct (mkdir_loop_Raised _ _ _ _ H1).
Qed.

End MethodFacts.

(** * The order of the categories *)

Lemma elem_getitem (m : mapping) k v :
  NoDup (keys m) → (k, v) ∈ m → getitem m k = Some v.
Proof.
  unfold keys. induction m as [|[k' v'] m IH]; csimpl.
  - by intros _ ?%elem_of_nil.
  - intros [Hk' Hnd]%NoDup_cons [[= -> ->]|Hin]%elem_of_cons.
    + by rewrite String.eqb_refl.
    + destruct (String.eqb_spec k' k) as [->|]; [|auto].
      exfalso. apply Hk'. apply list_elem_of_fmap. by exists (k, v).
Qed.

Lemma getitem_Permutation (m m' : mapping) k :
  m' ≡ₚ m → NoDup (keys m) → getitem m' k = getitem m k.
Proof.
  intros Hp Hnd.
  assert (NoDup (keys m')) as Hnd' by (unfold keys; by rewrite Hp).
  destruct (getitem m k) as [v|] eqn:Hk.
  - apply elem_getitem; [done|]. rewrite Hp. by apply getitem_elem.
  - destruct (getitem m' k) as [v|] eqn:Hk'; [|done].
    apply getitem_elem in Hk'. rewrite Hp in Hk'.
    apply (elem_getitem m k v Hnd) in Hk'. congruence.
Qed.

Lemma mkdir_loop_Permutation ks ks' d d1 :
  ks' ≡ₚ ks → for_each mkdir_exist_ok ks d = Done d1 →
  for_each mkdir_exist_ok ks' d = Done d1.
Proof.
  intros Hp Hrun.
  destruct (for_each mkdir_exist_ok ks' d) as [d1'|e d1'] eqn:Hrun'.
  - f_equal. apply map_eq. intros k.
    rewrite (mkdir_loop_result _ _ _ Hrun k), (mkdir_loop_result _ _ _ Hrun' k).
    destruct (d !! k); [done|].
    apply (f_equal (λ b : bool, if b then Some (Dir ∅) else None)).
    apply bool_decide_ext. by rewrite Hp.
  - destruct (mkdir_loop_Raised _ _ _ _ Hrun') as (_ & k & Hk & Hf).
    rewrite Hp in Hk.
    destruct (mkdir_loop_raises ks d k Hk Hf) as [d2 E]. congruence.
Qed.

(** X7. When no extension is listed under two categories, the order of
    the categories in the mapping does not matter: with the categories in
    any other order [organize_files] has the same outcome, and a run of
    [organize] that returns, returns with the same directory. *)
Theorem category_order_is_irrelevant on_collision listdir self self' d :
  org_directories self' ≡ₚ org_directories self →
  NoDup (keys (org_directories self)) →
  exclusive (org_directories self) = true →
  organize_files on_collision listdir self' d
  = organize_files on_collision listdir self d ∧
  ∀ d', organize on_collision listdir self d = Done d' →
        organize on_collision listdir self' d = Done d'.
Proof.
  intros Hp Hnd Hex.
  assert (keys (org_directories self') ≡ₚ keys (org_directories self)) as Hkp
    by (unfold keys; by rewrite Hp).
  assert (NoDup (keys (org_directories self'))) as Hnd' by (by rewrite Hkp).
  assert (∀ k e, listed (org_directories self') k e
                 = listed (org_directories self) k e) as Hl.
  { intros k e. unfold listed. by rewrite (getitem_Permutation _ _ k Hp Hnd). }
  assert (∀ d0, organize_files on_collision listdir self' d0
                = organize_files on_collision listdir self d0) as Hfiles.
  { intros d0. unfold organize_files. apply for_each_ext. intros y d1 _.
    unfold organize_files_step.
    destruct (is_file d1 y && Str.nonempty (suffix y)); [|done].
    destruct (decide (Exists
                (λ k, listed (org_directories self) k
                        (Str.lower (suffix y)) = true)
                (keys (org_directories self)))) as [Hsome|Hnone].
    - apply Exists_exists in Hsome as (cat & Hcat & Hlc).
      assert (∀ k, k ≠ cat →
                listed (org_directories self) k (Str.lower (suffix y)) = false)
        as Hothers.
      { intros k Hk. destruct (listed _ k _) eqn:Hlk; [|done].
        by rewrite (listed_once self _ _ _ Hex Hlk Hlc) in Hk. }
      rewrite (inner_single on_collision self' y cat);
        [ | done | done | by rewrite Hkp | by rewrite Hl
          | intros k _ Hk; rewrite Hl; by apply Hothers ].
      rewrite (inner_single on_collision self y cat); auto.
    - assert (∀ k, k ∈ keys (org_directories self) →
                listed (org_directories self) k (Str.lower (suffix y)) = false)
        as Hno.
      { intros k Hk. destruct (listed _ k _) eqn:Hlk; [|done].
        exfalso. apply Hnone, Exists_exists. eauto. }
      rewrite (inner_not_listed on_collision self' y);
        [ | done | intros k Hk; rewrite Hl; apply Hno; by rewrite <- Hkp ].
      by rewrite (inner_not_listed on_collision self y). }
  split; [apply Hfiles|].
  intros d' (d1 & d2 & d3 & H1 & H2 & H3 & H4)%organize_Done_steps.
  unfold organize, and_then.
  unfold create_folders in *.
  rewrite (mkdir_loop_Permutation _ _ _ _ Hkp H1), Hfiles, H2, H3.
  rewrite <- H4. unfold organize_remaining_folders. apply for_each_ext.
  intros y d0 _. unfold organize_remaining_folders_step.
  replace (bool_decide (y ∉ keys (org_directories self')))
    with (bool_decide (y ∉ keys (org_directories self))); [done|].
  apply bool_decide_ext. by rewrite Hkp.
Qed.

(** * Facts about paths and the constructor *)

Module PathFacts.
Import Pathlib.

Lemma split_pieces sep s x :
  x ∈ Str.split sep s → Str.occurs sep x = false.
Proof.
  revert x. induction s as [|a s IH]; intros x; simpl.
  - by intros [->|[]%elem_of_nil]%elem_of_cons.
  - destruct (Ascii.eqb a sep) eqn:Ha.
    + intros [->|H]%elem_of_cons; [done | auto].
    + destruct (Str.split sep s) as [|w ws].
      * intros [->|[]%elem_of_nil]%elem_of_cons. simpl. by rewrite Ha.
      * intros [->|H]%elem_of_cons.
        -- simpl. rewrite Ha. apply IH. by left.
        -- apply IH. by right.
Qed.







End PathFacts.


(** * Further properties of the constructor and of the strings *)

Lemma Path_rooted s : Pathlib.is_absolute (Pathlib.Path (String "/" s)) = true.
Proof.
  unfold Pathlib.is_absolute, Pathlib.Path. simpl.
  unfold Pathlib.splitroot. simpl.
  by destruct (_ =? 2)%Z.
Qed.

(** X19. The constructor fails (with the [RuntimeError] of [expanduser])
    exactly when the parsed target directory has no root, its first
    component starts with ['~'], and the home directory of the user named
    after the ['~'] cannot be determined.  A target directory that starts
    with ['/'] is accepted whatever the home lookup says, and is stored
    as parsed. *)
Theorem init_fails_iff gethomedir td od :
  (init gethomedir td od = None
   ↔ Pathlib.expandable (Pathlib.Path (default TARGET_DIR td)) = true ∧
     gethomedir (Str.slice_from 1
       (hd "" (Pathlib.parts (Pathlib.Path (default TARGET_DIR td))))) = None) ∧
  (∀ s, td = Some (String "/" s) →
        init gethomedir td od
        = Some {| target_dir := Pathlib.Path (String "/" s);
                  org_directories := default ORG_DIRECTORIES od |}).
Proof.
  split.
  - unfold init, Pathlib.expanduser.
    destruct (Pathlib.expandable _); [|by split; [|intros [? _]]].
    destruct (gethomedir _); by split; [|intros [_ ?]].
  - intros s ->. unfold init, Pathlib.expanduser.
    change (default TARGET_DIR (Some (String "/" s))) with (String "/" s).
    pose proof (Path_rooted s) as Hr. unfold Pathlib.is_absolute in Hr.
    unfold Pathlib.expandable. by rewrite Hr.
Qed.

Module SplitFacts.
Import Str.

Lemma split_nonempty sep s : split sep s ≠ [].
Proof.
  destruct s as [|a s]; simpl; [done|].
  destruct (Ascii.eqb a sep); [done|]. by destruct (split sep s).
Qed.

Lemma join_cons_char sep a w ws :
  join sep (String a w :: ws) = String a (join sep (w :: ws)).
Proof. by destruct ws. Qed.

Lemma join_split sep s : join sep (split sep s) = s.
Proof.
  induction s as [|a s IH]; [done|]. simpl.
  destruct (Ascii.eqb_spec a sep) as [->|Hne].
  - pose proof (split_nonempty sep s) as Hn.
    simpl. destruct (split sep s) as [|w ws]; [done|].
    by rewrite StrFacts.app_nil, IH.
  - pose proof (split_nonempty sep s) as Hn.
    destruct (split sep s) as [|w ws]; [done|].
    by rewrite join_cons_char, IH.
Qed.

Lemma split_piece sep w : occurs sep w = false → split sep w = [w].
Proof.
  induction w as [|a w IH]; [done|]. simpl.
  intros [Ha Hw]%orb_false_iff. rewrite Ha, (IH Hw). done.
Qed.

Lemma split_app sep w t :
  occurs sep w = false → split sep (w ++ String sep t) = w :: split sep t.
Proof.
  induction w as [|a w IH].
  - intros _. rewrite StrFacts.app_nil. simpl. by rewrite Ascii.eqb_refl.
  - rewrite StrFacts.app_cons. simpl. intros [Ha Hw]%orb_false_iff.
    by rewrite Ha, (IH Hw).
Qed.

Lemma split_join sep ws :
  ws ≠ [] → (∀ w, w ∈ ws → occurs sep w = false) →
  split sep (join sep ws) = ws.
Proof.
  induction ws as [|w ws IH]; [done|]. intros _ Hall.
  destruct ws as [|w2 ws].
  - simpl. apply split_piece, Hall. by left.
  - change (join sep (w :: w2 :: ws))
      with (w ++ String sep (join sep (w2 :: ws))).
    rewrite split_app by (apply Hall; by left).
    f_equal. apply IH; [done|]. intros x Hx. apply Hall. by right.
Qed.

End SplitFacts.

(** X20. [space_splitter] and joining with single spaces are inverse to
    each other: the pieces of a string, joined by spaces, give the string
    back, no piece contains a space, and a non-empty list of tokens
    without spaces is what [space_splitter] returns on the tokens joined
    by spaces. *)
Theorem space_splitter_round_trip :
  (∀ s, Str.join " " (space_splitter s) = s ∧
        space_splitter s ≠ [] ∧
        ∀ w, w ∈ space_splitter s → Str.occurs " " w = false) ∧
  (∀ ws, ws ≠ [] → (∀ w, w ∈ ws → Str.occurs " " w = false) →
         space_splitter (Str.join " " ws) = ws).
Proof.
  split.
  - intros s. split_and!.
    + apply SplitFacts.join_split.
    + apply SplitFacts.split_nonempty.
    + intros w. apply PathFacts.split_pieces.
  - intros ws. apply SplitFacts.split_join.
Qed.

(** X22. Which files the two file loops look at: a name has a non-empty
    suffix exactly when it can be cut at a dot that is neither its first
    nor its last character and is followed by no further dot, and the
    suffix is then that dot with what follows it. *)
Theorem has_suffix_iff name :
  Str.nonempty (suffix name) = true
  ↔ ∃ stem t, name = stem ++ String "." t ∧
              Str.nonempty stem = true ∧ Str.nonempty t = true ∧
              Str.occurs "." t = false ∧ suffix name = String "." t.
Proof.
  split.
  - intros Hs.
    destruct (StrFacts.suffix_cases name) as [E | H]; [by rewrite E in Hs|].
    done.
  - intros (stem & t & _ & _ & _ & _ & ->). done.
Qed.

(** * The properties on the example inputs *)

Lemma listdir_keys_spec d : listdir_keys d ≡ₚ (map_to_list d).*1.
Proof. reflexivity. Qed.

Lemma default_self_built : init home_of None None = Some default_self.
Proof. reflexivity. Qed.

(** the run of the end-to-end scenario: everything is classified, and
    [Other] ends inside [FOLDERS] *)
Example downloads_run :
  organize posix_policy listdir_keys default_self downloads
  = Done (list_to_map
      [ ("Documents", Dir ∅);
        ("Plaintext", Dir {[ "notes.txt" := File "some notes" ]});
        ("PDFs", Dir ∅);
        ("Images", Dir {[ "photo.JPG" := File "jpeg data" ]});
        ("Audio", Dir ∅); ("Videos", Dir ∅);
        ("Archives", Dir {[ "archive.zip" := File "zip data" ]});
        ("Scripts", Dir ∅);
        ("no_ext_file", File "plain"); (".bashrc", File "alias ll");
        ("FOLDERS", Dir (list_to_map
           [ ("OldStuff", Dir {[ "old.txt" := File "old" ]});
             ("Other", Dir (list_to_map
                [ ("mystery.xyz", File "who knows");
                  ("slides.pptx", File "deck") ])) ])) ]).
Proof. vm_compute. reflexivity. Qed.

(** the first run: the category folders are made, the listed files are
    classified, and the sweep of the files raises *)
Example fresh_downloads_run :
  organize posix_policy listdir_keys default_self fresh_downloads
  = Raised FileNotFoundError (list_to_map
      [ ("Documents", Dir ∅);
        ("Plaintext", Dir {[ "notes.txt" := File "some notes" ]});
        ("PDFs", Dir ∅);
        ("Images", Dir {[ "photo.JPG" := File "jpeg data" ]});
        ("Audio", Dir ∅); ("Videos", Dir ∅);
        ("Archives", Dir {[ "archive.zip" := File "zip data" ]});
        ("Scripts", Dir ∅);
        ("mystery.xyz", File "who knows"); ("slides.pptx", File "deck");
        ("no_ext_file", File "plain"); (".bashrc", File "alias ll");
        ("OldStuff", Dir {[ "old.txt" := File "old" ]}) ]).
Proof. vm_compute. reflexivity. Qed.

(** a namesake in the category folder: POSIX [rename] replaces it, a
    primitive that refuses raises *)
Example namesake_replaced :
  organize_files posix_policy listdir_keys default_self
    (list_to_map [ ("Plaintext", Dir {[ "notes.txt" := File "old notes" ]});
                   ("notes.txt", File "new notes") ])
  = Done
      (list_to_map [ ("Plaintext", Dir {[ "notes.txt" := File "new notes" ]}) ]).
Proof. vm_compute. reflexivity. Qed.

Example namesake_refused :
  organize_files refusing_policy listdir_keys default_self
    (list_to_map [ ("Plaintext", Dir {[ "notes.txt" := File "old notes" ]});
                   ("notes.txt", File "new notes") ])
  = Raised FileExistsError
      (list_to_map [ ("Plaintext", Dir {[ "notes.txt" := File "old notes" ]});
                     ("notes.txt", File "new notes") ]).
Proof. vm_compute. reflexivity. Qed.

(** ['.txt'] under two categories: the file goes to the first one and
    the second rename finds no source *)
Example two_folders_run :
  organize_files posix_policy listdir_keys twice_listed two_folders
  = Raised FileNotFoundError (list_to_map
      [ ("Notes", Dir {[ "todo.txt" := File "buy milk" ]});
        ("Text", Dir ∅) ]).
Proof. vm_compute. reflexivity. Qed.

Lemma unmatched_file_ends_under_FOLDERS_witness :
  let d' := state_of (organize posix_policy listdir_keys default_self downloads) in
  downloads !! "mystery.xyz" = Some (File "who knows") ∧
  d' !! "Other" = None ∧
  entry_at d' "Other" "mystery.xyz" = None ∧
  ∃ swept, entry_at d' "FOLDERS" "Other" = Some (Dir swept) ∧
           swept !! "mystery.xyz" = Some (File "who knows").
Proof.
  split; [vm_compute; reflexivity|].
  apply (unmatched_file_ends_under_FOLDERS posix_policy listdir_keys
           (λ d, Permutation_refl _) default_self downloads _ ∅
           "mystery.xyz" "who knows").
  - reflexivity.
  - vm_compute. reflexivity.
  - vm_compute. reflexivity.
  - reflexivity.
  - apply (unlisted_by_table _ ".xyz"); vm_compute; reflexivity.
  - vm_compute. reflexivity.
Defined.

Lemma extension_in_two_categories_raises_witness :
  two_folders !! "todo.txt" = Some (File "buy milk") ∧
  ∃ e d', organize_files posix_policy listdir_keys twice_listed two_folders
          = Raised e d'.
Proof.
  split; [vm_compute; reflexivity|].
  apply (extension_in_two_categories_raises posix_policy listdir_keys
           (λ d, Permutation_refl _) twice_listed two_folders
           "todo.txt" "buy milk" "Notes" "Text").
  - discriminate.
  - vm_compute. reflexivity.
  - vm_compute. reflexivity.
  - vm_compute. reflexivity.
  - reflexivity.
Defined.

Lemma dotless_tokens_never_match_witness :
  unlisted ORG_DIRECTORIES "slides.pptx" ∧
  state_of (organize_files posix_policy listdir_keys default_self prepared_downloads)
    !! "slides.pptx" = Some (File "deck").
Proof.
  destruct (dotless_tokens_never_match posix_policy listdir_keys default_self
              eq_refl) as (_ & H & _).
  destruct (H "slides" "slides.pptx" prepared_downloads "deck" (or_introl eq_refl))
    as [Hun Hstay].
  split; [exact Hun|]. apply Hstay. vm_compute. reflexivity.
Defined.


Lemma organize_files_classifies_witness :
  let d' := state_of (organize_files posix_policy listdir_keys default_self
                        prepared_downloads) in
  Str.lower (suffix "photo.JPG") = ".jpg" ∧
  d' !! "photo.JPG" = None ∧
  entry_at d' "Images" "photo.JPG" = Some (File "jpeg data") ∧
  ∀ k, k ≠ "Images" → entry_at d' k "photo.JPG" = entry_at prepared_downloads k "photo.JPG".
Proof.
  split; [reflexivity|].
  apply (organize_files_classifies posix_policy listdir_keys
           (λ d, Permutation_refl _) default_self prepared_downloads _ "Images"
           [".jpeg"; ".jpg"; ".tif"; ".tiff"; ".gif"; ".bmp"; ".png"; ".bpg";
            "svg"; ".heif"; ".psd"] ".jpg" "jpg" "photo.JPG" "jpeg data").
  - reflexivity.
  - reflexivity.
  - apply (bool_decide_unpack _). vm_compute. exact I.
  - reflexivity.
  - reflexivity.
  - vm_compute. reflexivity.
  - vm_compute. reflexivity.
Defined.



Lemma create_folders_idempotent_witness :
  let d' := state_of (create_folders default_self fresh_downloads) in
  create_folders default_self d' = Done d' ∧
  ∀ k, k ∈ keys ORG_DIRECTORIES → is_dir d' k = true.
Proof.
  apply (create_folders_idempotent default_self fresh_downloads).
  vm_compute. reflexivity.
Defined.

Lemma extensionless_file_untouched_witness :
  suffix "no_ext_file" = "" ∧
  state_of (organize posix_policy listdir_keys default_self downloads)
    !! "no_ext_file" = Some (File "plain").
Proof.
  split; [reflexivity|].
  apply (extensionless_file_untouched posix_policy listdir_keys default_self
           downloads "no_ext_file" "plain").
  - vm_compute. reflexivity.
  - reflexivity.
Defined.

Lemma dotfile_is_extensionless_witness :
  suffix ".bashrc" = "" ∧
  state_of (organize posix_policy listdir_keys default_self downloads)
    !! ".bashrc" = Some (File "alias ll").
Proof.
  destruct (dotfile_is_extensionless posix_policy listdir_keys default_self
              downloads "bashrc" "alias ll") as (Hs & _ & _ & Hrun).
  - reflexivity.
  - vm_compute. reflexivity.
  - split; [exact Hs | exact Hrun].
Defined.


(** * The further properties on the example inputs *)



Lemma create_folders_result_witness :
  let d' := state_of (create_folders default_self fresh_downloads) in
  d' !! "Images" = Some (Dir ∅) ∧
  d' !! "photo.JPG" = Some (File "jpeg data") ∧
  d' !! "Other" = None.
Proof.
  pose proof (create_folders_result default_self fresh_downloads
                (state_of (create_folders default_self fresh_downloads))) as R.
  split_and!; (etrans; [apply R|]); vm_compute; reflexivity.
Defined.



Lemma organize_files_leaves_folders_witness :
  state_of (organize_files posix_policy listdir_keys default_self
              prepared_downloads) !! "OldStuff"
  = prepared_downloads !! "OldStuff".
Proof.
  apply (proj1 (organize_files_leaves_folders posix_policy listdir_keys
                  default_self prepared_downloads "OldStuff")).
  - vm_compute. reflexivity.
  - apply (bool_decide_unpack _). vm_compute. exact I.
Defined.



Lemma category_order_is_irrelevant_witness :
  organize_files posix_policy listdir_keys reversed_self prepared_downloads
  = organize_files posix_policy listdir_keys default_self prepared_downloads ∧
  organize posix_policy listdir_keys reversed_self downloads
  = Done (state_of (organize posix_policy listdir_keys default_self downloads)).
Proof.
  assert (org_directories reversed_self ≡ₚ org_directories default_self)
    as Hp by apply reverse_Permutation.
  assert (NoDup (keys (org_directories default_self))) as Hnd
    by (apply (bool_decide_unpack _); vm_compute; exact I).
  split.
  - apply (category_order_is_irrelevant posix_policy listdir_keys default_self
             reversed_self prepared_downloads Hp Hnd eq_refl).
  - apply (category_order_is_irrelevant posix_policy listdir_keys default_self
             reversed_self downloads Hp Hnd eq_refl).
    vm_compute. reflexivity.
Defined.

Lemma organize_remaining_files_sweeps_witness :
  swept_downloads !! "mystery.xyz" = None ∧
  entry_at swept_downloads "Other" "mystery.xyz" = Some (File "who knows").
Proof.
  apply (organize_remaining_files_sweeps posix_policy listdir_keys
           (λ d, Permutation_refl _) classified_downloads swept_downloads).
  - vm_compute. reflexivity.
  - vm_compute. reflexivity.
  - reflexivity.
Defined.

Lemma organize_remaining_files_leaves_rest_witness :
  state_of (organize_remaining_files posix_policy listdir_keys
              classified_downloads) !! "OldStuff"
  = classified_downloads !! "OldStuff".
Proof.
  apply (proj1 (organize_remaining_files_leaves_rest posix_policy listdir_keys
                  classified_downloads "OldStuff")).
  - vm_compute. reflexivity.
  - discriminate.
Defined.


Lemma organize_remaining_folders_sweeps_witness :
  let d' := state_of (organize_remaining_folders posix_policy listdir_keys
                        default_self swept_downloads) in
  d' !! "OldStuff" = None ∧
  entry_at d' "FOLDERS" "OldStuff" = Some (Dir {[ "old.txt" := File "old" ]}).
Proof.
  apply (organize_remaining_folders_sweeps posix_policy listdir_keys
           (λ d, Permutation_refl _) default_self swept_downloads).
  - vm_compute. reflexivity.
  - vm_compute. reflexivity.
  - apply (bool_decide_unpack _). vm_compute. exact I.
  - discriminate.
Defined.

Lemma organize_remaining_folders_leaves_rest_witness :
  state_of (organize_remaining_folders posix_policy listdir_keys default_self
              swept_downloads) !! "Images"
  = swept_downloads !! "Images".
Proof.
  apply (proj1 (organize_remaining_folders_leaves_rest posix_policy
                  listdir_keys default_self swept_downloads "Images")).
  - discriminate.
  - intros _. apply (bool_decide_unpack _). vm_compute. exact I.
Defined.

Lemma organize_idempotent_witness :
  let d' := state_of (organize posix_policy listdir_keys default_self
                        downloads) in
  organize posix_policy listdir_keys default_self d' = Done d'.
Proof.
  apply (organize_idempotent posix_policy listdir_keys
           (λ d, Permutation_refl _) default_self downloads).
  vm_compute. reflexivity.
Defined.

Lemma organize_leaves_a_tidy_directory_witness :
  let d' := state_of (organize posix_policy listdir_keys default_self
                        downloads) in
  (∀ k, k ∈ keys ORG_DIRECTORIES → is_dir d' k = true) ∧
  (∀ n v, d' !! n = Some v →
     (is_dir d' n = true ∧ (n ∈ keys ORG_DIRECTORIES ∨ n = "FOLDERS")) ∨
     (is_file d' n = true ∧ suffix n = "")).
Proof.
  apply (organize_leaves_a_tidy_directory posix_policy listdir_keys
           (λ d, Permutation_refl _) default_self downloads).
  vm_compute. reflexivity.
Defined.

Lemma organize_creates_only_category_folders_witness :
  state_of (organize posix_policy listdir_keys default_self fresh_downloads)
    !! "Other" = None.
Proof.
  apply (organize_creates_only_category_folders posix_policy listdir_keys
           default_self fresh_downloads "Other").
  - vm_compute. reflexivity.
  - apply (bool_decide_unpack _). vm_compute. exact I.
Defined.


Lemma organize_places_listed_file_witness :
  let d' := state_of (organize posix_policy listdir_keys default_self
                        downloads) in
  d' !! "photo.JPG" = None ∧
  entry_at d' "Images" "photo.JPG" = Some (File "jpeg data").
Proof.
  apply (organize_places_listed_file posix_policy listdir_keys
           (λ d, Permutation_refl _) default_self downloads _ "Images"
           [".jpeg"; ".jpg"; ".tif"; ".tiff"; ".gif"; ".bmp"; ".png"; ".bpg";
            "svg"; ".heif"; ".psd"] ".jpg" "jpg" "photo.JPG" "jpeg data").
  - reflexivity.
  - reflexivity.
  - apply (bool_decide_unpack _). vm_compute. exact I.
  - reflexivity.
  - reflexivity.
  - vm_compute. reflexivity.
  - vm_compute. reflexivity.
Defined.

Lemma organize_sweeps_loose_folder_witness :
  let d' := state_of (organize posix_policy listdir_keys default_self
                        downloads) in
  d' !! "OldStuff" = None ∧
  entry_at d' "FOLDERS" "OldStuff" = Some (Dir {[ "old.txt" := File "old" ]}).
Proof.
  apply (organize_sweeps_loose_folder posix_policy listdir_keys
           (λ d, Permutation_refl _) default_self downloads).
  - apply (bool_decide_unpack _). vm_compute. exact I.
  - discriminate.
  - discriminate.
  - vm_compute. reflexivity.
  - vm_compute. reflexivity.
Defined.

Lemma init_fails_iff_witness :
  init home_of (Some "~bob/inbox") None = None ∧
  init home_of (Some "/srv/inbox") None
  = Some {| target_dir := Pathlib.Path "/srv/inbox";
            org_directories := ORG_DIRECTORIES |}.
Proof.
  split.
  - apply (proj1 (init_fails_iff home_of (Some "~bob/inbox") None)).
    split; reflexivity.
  - apply (proj2 (init_fails_iff home_of (Some "/srv/inbox") None)
             "srv/inbox" eq_refl).
Defined.

Lemma space_splitter_round_trip_witness :
  space_splitter (Str.join " " [".sh"; ".zsh"; ".py"]) = [".sh"; ".zsh"; ".py"].
Proof.
  apply (proj2 space_splitter_round_trip [".sh"; ".zsh"; ".py"]); [done|].
  intros w Hw. apply list_elem_of_In in Hw. vm_compute in Hw.
  repeat (destruct Hw as [<-|Hw]; [reflexivity|]). destruct Hw.
Defined.

Lemma classification_survives_the_sweeps_witness :
  let r := organize posix_policy listdir_keys default_self fresh_downloads in
  (∃ d', r = Raised FileNotFoundError d') ∧
  state_of r !! "photo.JPG" = None ∧
  entry_at (state_of r) "Images" "photo.JPG" = Some (File "jpeg data").
Proof.
  split; [eexists; vm_compute; reflexivity|].
  apply (classification_survives_the_sweeps posix_policy listdir_keys
           (λ d, Permutation_refl _) default_self fresh_downloads
           (state_of ((create_folders default_self >>
                       organize_files posix_policy listdir_keys default_self)
                        fresh_downloads))
           "Images"
           [".jpeg"; ".jpg"; ".tif"; ".tiff"; ".gif"; ".bmp"; ".png"; ".bpg";
            "svg"; ".heif"; ".psd"] ".jpg" "jpg" "photo.JPG" "jpeg data").
  - reflexivity.
  - reflexivity.
  - apply (bool_decide_unpack _). vm_compute. exact I.
  - reflexivity.
  - reflexivity.
  - vm_compute. reflexivity.
  - vm_compute. reflexivity.
Defined.

Lemma sweeps_without_their_folder_witness :
  organize_remaining_files posix_policy listdir_keys sweep_blocked_downloads
  = Raised NotADirectoryError sweep_blocked_downloads ∧
  organize_remaining_folders posix_policy listdir_keys default_self
    sweep_blocked_downloads
  = Raised NotADirectoryError sweep_blocked_downloads.
Proof.
  destruct (sweeps_without_their_folder posix_policy listdir_keys
              (λ d, Permutation_refl _) default_self sweep_blocked_downloads)
    as [Hfiles Hfolders].
  split.
  - apply (Hfiles "mystery.xyz" "who knows").
    + vm_compute. reflexivity.
    + reflexivity.
    + vm_compute. reflexivity.
  - apply (Hfolders "OldStuff" ∅).
    + vm_compute. reflexivity.
    + apply (bool_decide_unpack _). vm_compute. exact I.
    + discriminate.
    + vm_compute. reflexivity.
Defined.

Lemma organize_raises_only_witness :
  FileNotFoundError = FileExistsError ∨
  raised_by_rename posix_policy FileNotFoundError.
Proof.
  apply (organize_raises_only posix_policy listdir_keys default_self
           fresh_downloads FileNotFoundError
           (state_of (organize posix_policy listdir_keys default_self
                        fresh_downloads))).
  vm_compute. reflexivity.
Defined.

Lemma file_loops_keep_what_folders_held_witness :
  entry_at (state_of (organize_files posix_policy listdir_keys default_self
                        prepared_downloads)) "OldStuff" "old.txt"
  = entry_at prepared_downloads "OldStuff" "old.txt".
Proof.
  apply (proj1 (file_loops_keep_what_folders_held posix_policy listdir_keys
                  default_self prepared_downloads "OldStuff" "old.txt")).
  vm_compute. reflexivity.
Defined.
